(** * Credential verification and recovery core of the user service

  A shallow embedding of [src/users/user.service.ts]: one-time passcodes
  for email verification ([generateOtp], [verifyOtp]), signed reset tokens
  ([resetPassword], [generateResetToken], [verifyResetToken],
  [updatePassword]) and the verification-gated presence toggle
  ([checkOnlineConditions], [toggleUserStatus], [getUserStatus]).

  The two repositories are an in-memory store threaded through every
  operation; what a request reads from outside (clock, random source,
  process environment, outcome of the mail transport) is an explicit
  [Env.t] argument.  Repository calls themselves are taken to complete:
  the [catch] blocks are reached through the signer and the mailer.

  Around that core the development also covers registration ([create]),
  [changeEmail], and of [src/settings/settings.service.ts] the
  operations on the fields a user row carries here ([changeEmail],
  [changePhoneNumber], [changePassword],
  [updateCommunicationPreferences], [getSettings], [updateLanguage]). *)

From Stdlib Require Import List String Ascii ZArith Bool Lia.
From Stdlib Require Import QArith Qround DecimalString.
Import ListNotations.
Close Scope Q_scope.
Open Scope string_scope.

(** ** JavaScript helpers *)

(** [a || b] on a string: the empty string is falsy. *)
Definition or_default (a b : string) : string :=
  if String.eqb a "" then b else a.

(** [Number.prototype.toString] on an integer. *)
Definition toString (z : Z) : string :=
  NilZero.string_of_int (Z.to_int z).

(** [Math.floor(1000 + r * 9000)] for the draw [r] of [Math.random()],
    computed exactly.  The source computes it in doubles, whose rounding
    can move the result by one for some draws; the theorems below take
    the drawn code as it comes and do not depend on its value. *)
Definition floor_1000_plus_9000 (r : Q) : Z :=
  Qfloor (Qplus (inject_Z 1000) (Qmult r (inject_Z 9000))).

Definition nl : string := String (ascii_of_nat 10) "".
Definition dquote : string := String (ascii_of_nat 34) "".

(** ** Entities *)

Module Settings.
(** The settings aggregate.  A preference a stored object does not carry
    reads as [undefined], here [None]; [verified] is read for its truth
    value only. *)
Record t : Type := mk {
  verified : bool;
  notificationsEmail : option bool;
  notificationsSms : option bool;
  securityTwoFactorAuth : option bool;
  language : option string
}.

Definition with_verified (b : bool) (st : t) : t :=
  mk b (notificationsEmail st) (notificationsSms st)
     (securityTwoFactorAuth st) (language st).

(** The object literal [{ verified: b }]. *)
Definition only_verified (b : bool) : t := mk b None None None None.

Definition with_notificationsEmail (o : option bool) (st : t) : t :=
  mk (verified st) o (notificationsSms st) (securityTwoFactorAuth st)
     (language st).

Definition with_notificationsSms (o : option bool) (st : t) : t :=
  mk (verified st) (notificationsEmail st) o (securityTwoFactorAuth st)
     (language st).

Definition with_securityTwoFactorAuth (o : option bool) (st : t) : t :=
  mk (verified st) (notificationsEmail st) (notificationsSms st) o
     (language st).

Definition with_language (o : option string) (st : t) : t :=
  mk (verified st) (notificationsEmail st) (notificationsSms st)
     (securityTwoFactorAuth st) o.
End Settings.

Module User.
Record t : Type := mk {
  id : string;
  email : string;
  phone : string;
  firstName : string;
  password : string;
  resetPasswordToken : option string;
  status : string;
  settings : option Settings.t
}.

Definition with_password (p : string) (u : t) : t :=
  mk (id u) (email u) (phone u) (firstName u) p
     (resetPasswordToken u) (status u) (settings u).

Definition with_resetPasswordToken (k : option string) (u : t) : t :=
  mk (id u) (email u) (phone u) (firstName u) (password u)
     k (status u) (settings u).

Definition with_status (x : string) (u : t) : t :=
  mk (id u) (email u) (phone u) (firstName u) (password u)
     (resetPasswordToken u) x (settings u).

Definition with_settings (o : option Settings.t) (u : t) : t :=
  mk (id u) (email u) (phone u) (firstName u) (password u)
     (resetPasswordToken u) (status u) o.

(** [user.settings && user.settings.verified] as a truth value. *)
Definition settings_and_verified (u : t) : bool :=
  match settings u with
  | Some st => Settings.verified st
  | None => false
  end.

(** What the aggregate holds besides the flag, as [user.settings?.x] reads
    it: an absent aggregate holds no preference. *)
Definition preferences (u : t)
  : option bool * option bool * option bool * option string :=
  match settings u with
  | Some st =>
      (Settings.notificationsEmail st, Settings.notificationsSms st,
       Settings.securityTwoFactorAuth st, Settings.language st)
  | None => (None, None, None, None)
  end.

(** [u'] is [u] in every field but the verified flag. *)
Definition same_but_verified (u u' : t) : Prop :=
  id u' = id u /\ email u' = email u /\ phone u' = phone u
  /\ firstName u' = firstName u /\ password u' = password u
  /\ resetPasswordToken u' = resetPasswordToken u /\ status u' = status u
  /\ preferences u' = preferences u.

Definition with_email (e : string) (u : t) : t :=
  mk (id u) e (phone u) (firstName u) (password u)
     (resetPasswordToken u) (status u) (settings u).

Definition with_phone (p : string) (u : t) : t :=
  mk (id u) (email u) p (firstName u) (password u)
     (resetPasswordToken u) (status u) (settings u).
End User.

Module VerificationOtp.
Record t : Type := mk {
  id : nat;
  userId : string;
  otp : string;
  expires_at : Z
}.
End VerificationOtp.

Module Email.
(** One message handed to the transport by [mailerService.sendEmail]. *)
Record t : Type := mk {
  from : string;
  to : string;
  subject : string;
  body : string
}.
End Email.

(** ** Responses *)

Inductive ResultTag : Type := success | error.

(** The shapes the [data] field of a response takes in this service. *)
Inductive Data : Type :=
| DNull
| DOtp (userId : string) (expires_at : Z)
| DValid (valid : bool)
| DUser (user : User.t)
| DStatus (status : string).

Record RequestResponse : Type := mkResponse {
  result : ResultTag;
  message : string;
  data : Data
}.

(** What a call without a surrounding [try] can do: return, or throw one of
  the two exceptions met in this service. *)
Inductive Outcome (A : Type) : Type :=
| Returned (a : A)
| HttpException (status : nat) (msg : string)
| TypeError (msg : string).
Arguments Returned {A} a.
Arguments HttpException {A} status msg.
Arguments TypeError {A} msg.

Definition BAD_REQUEST : nat := 400.
Definition NOT_FOUND : nat := 404.

(** ** The world around a request *)

(** Modelled from the spec: the mail service ([core/services/mailer.service])
  is not part of the sources; its interface is
  [send(fromTag, toAddress, subject, body) -> Result<(), Error>].  A send
  either delivers, or returns a failure value, or (as any awaited call
  may) rejects with an error carrying a message. *)
Inductive MailOutcome : Type :=
| MailDelivered
| MailFailure (reason : string)
| MailRejects (msg : string).

Module Env.
Record t : Type := mk {
  now : Z;                        (* [new Date().getTime()], milliseconds *)
  random : Q;                     (* [Math.random()] *)
  salt : string;                  (* the salt [bcrypt.hash] draws *)
  mail : MailOutcome;             (* what the transport does with a send *)
  NODE_ENV : option string;
  FRONTEND_URL : option string
}.
End Env.

(** A template literal prints [undefined] for a missing variable. *)
Definition interpolate (o : option string) : string :=
  match o with
  | Some x => x
  | None => "undefined"
  end.

(** ** The store *)

Record State : Type := mkState {
  users : list User.t;
  otps : list VerificationOtp.t;
  next_otp_id : nat;
  outbox : list Email.t
}.

(** Modelled from the spec: the [VerificationOtp] entity
  ([entities/verify.entity]) is not part of the sources; a saved record
  gets [expiresAt = now + 5 minutes]. *)
Definition OTP_TTL_MS : Z := 5 * 60 * 1000.

Module userRepository.
Definition findOne (where_ : User.t -> bool) (s : State) : option User.t :=
  find where_ (users s).

(** [update(id, partial)]: the rows with this id get the partial applied. *)
Definition update (id : string) (partial : User.t -> User.t) (s : State)
  : State :=
  mkState
    (map (fun u => if String.eqb (User.id u) id then partial u else u)
         (users s))
    (otps s) (next_otp_id s) (outbox s).

(** [save(user)] of a loaded entity: its row is overwritten. *)
Definition save (user : User.t) (s : State) : State :=
  mkState
    (map (fun u => if String.eqb (User.id u) (User.id user) then user else u)
         (users s))
    (otps s) (next_otp_id s) (outbox s).

(** [save(entity)] of an entity that has no row yet: the row is added. *)
Definition save_new (row : User.t) (s : State) : State :=
  mkState (users s ++ [row]) (otps s) (next_otp_id s) (outbox s).
End userRepository.

Module otpRepository.
Definition findOne (where_ : VerificationOtp.t -> bool) (s : State)
  : option VerificationOtp.t :=
  find where_ (otps s).

Definition delete (id : nat) (s : State) : State :=
  mkState (users s)
    (filter (fun r => negb (Nat.eqb (VerificationOtp.id r) id)) (otps s))
    (next_otp_id s) (outbox s).

(** Modelled from the spec: [saveOtp(userId, code) -> {id, expiresAt}];
    the entity declaration is not part of the sources.  The record gets a
    fresh id and expires [OTP_TTL_MS] after the insertion. *)
Definition save (userId otp : string) (now : Z) (s : State)
  : VerificationOtp.t * State :=
  let r := VerificationOtp.mk (next_otp_id s) userId otp (now + OTP_TTL_MS) in
  (r, mkState (users s) (otps s ++ [r]) (S (next_otp_id s)) (outbox s)).
End otpRepository.

Module mailerService.
(** [await sendEmail(...)]: [inl msg] when the call rejects, otherwise the
    state after the call.  The returned value is dropped by every caller,
    so a failure value leaves no trace in the caller. *)
Definition sendEmail (from to subject body : string) (env : Env.t)
    (s : State) : string + State :=
  match Env.mail env with
  | MailDelivered =>
      inr (mkState (users s) (otps s) (next_otp_id s)
             (outbox s ++ [Email.mk from to subject body]))
  | MailFailure _ => inr s
  | MailRejects msg => inl msg
  end.
End mailerService.

Module Jwt.
(** The signed payload: the reset DTO, which carries the email. *)
Record payload : Type := mk { email : string }.

(** [jwtService.verify]: the decoded object (which the code tests for
    truthiness), or an exception with a message (bad signature, expired). *)
Inductive verified : Type :=
| Decoded (d : option payload)
| Throws (msg : string).
End Jwt.

Definition JWT_SECRET : string := "asaskhawew".
Definition JWT_EXPIRES_IN : string := "10m".
Definition BCRYPT_ROUNDS : nat := 10.

(** ** Request bodies *)

Module CreateUserDto.
(** The fields of the registration DTO that the service reads and that a
    user row of this development carries. *)
Record t : Type := mk {
  email : string;
  phone : string;
  firstName : string;
  password : string;
  confirmPassword : string
}.
End CreateUserDto.

Module NewRow.
(** What the store fills in when a user row is inserted.  The [User]
    entity ([entities/user.entity]) is not part of the sources, so the
    generated id and the defaults of the columns a DTO does not carry are
    inputs of an insertion. *)
Record t : Type := mk {
  id : string;
  resetPasswordToken : option string;
  status : string;
  settings : option Settings.t
}.
End NewRow.

Module UpdateCommunicationPreferencesDto.
(** A flag the request body leaves out reads as [undefined]. *)
Record t : Type := mk {
  notificationsEmail : option bool;
  notificationsSms : option bool;
  securityTwoFactorAuth : option bool
}.
End UpdateCommunicationPreferencesDto.

Module ChangeLanguageDto.
Record t : Type := mk { language : option string }.
End ChangeLanguageDto.

(** ** The spec's error kinds *)

(** Modelled from the spec: section 7 names the failure kinds; the code
    tells them apart by the message text of an error response only. *)
Inductive ErrorKind : Type :=
| NotFound
| InvalidCredential
| Expired
| AlreadyVerified
| DependencyFailure.

Definition kind_of (r : RequestResponse) : option ErrorKind :=
  match result r with
  | success => None
  | error =>
      if String.eqb (message r) "User not found" then Some NotFound
      else if String.eqb (message r) "Invalid OTP" then Some InvalidCredential
      else if String.eqb (message r) "Invalid token" then Some InvalidCredential
      else if String.eqb (message r) "OTP has expired" then Some Expired
      else if String.eqb (message r) "Token expired" then Some Expired
      else if String.eqb (message r) "User is already verified"
           then Some AlreadyVerified
      else Some DependencyFailure
  end.

Definition failure (msg : string) : RequestResponse :=
  mkResponse error msg DNull.

(** ** Sample collaborators and data *)

Module Demo.
(** A stand-in signer to run the service on sample data: a token spells
    out the email and the second at which it expires, ten minutes after
    its issue. *)
Definition signAsync (p : Jwt.payload) (secret expiresIn : string) (now : Z)
  : string :=
  Jwt.email p ++ "#" ++ toString (now / 1000 + 600)%Z.

Fixpoint split_hash (t : string) : option (string * string) :=
  match t with
  | EmptyString => None
  | String c rest =>
      if Ascii.eqb c "#"%char then Some (EmptyString, rest)
      else match split_hash rest with
           | Some (a, b) => Some (String c a, b)
           | None => None
           end
  end.

Definition verify (token secret : string) (now : Z) : Jwt.verified :=
  match split_hash token with
  | None => Jwt.Throws "jwt malformed"
  | Some (email, exp) =>
      match NilZero.int_of_string exp with
      | None => Jwt.Throws "jwt malformed"
      | Some e =>
          if (Z.of_int e <=? now / 1000)%Z then Jwt.Throws "jwt expired"
          else Jwt.Decoded (Some (Jwt.mk email))
      end
  end.

(** A stand-in for [bcrypt.hash]. *)
Definition hash (data : string) (rounds : nat) (salt : string) : string :=
  "$2b$" ++ toString (Z.of_nat rounds) ++ "$" ++ salt ++ data.

Definition preferences : Settings.t :=
  Settings.mk false (Some true) (Some false) (Some false) (Some "en").

(** [u1]: registered, not verified, offline. *)
Definition u1 : User.t :=
  User.mk "u1" "a@x.com" "+2348000000001" "Ada" "$2b$10$old" None
    "offline" (Some preferences).

(** [u2]: a stored user without a settings object. *)
Definition u2 : User.t :=
  User.mk "u2" "b@x.com" "+2348000000002" "Bayo" "$2b$10$old" None
    "offline" None.

(** [u3]: verified already. *)
Definition u3 : User.t :=
  User.mk "u3" "c@x.com" "+2348000000003" "Chi" "$2b$10$old" None
    "offline" (Some (Settings.with_verified true preferences)).

Definition s0 : State := mkState [u1; u2; u3] [] 1 [].

(** A request at time [now] (milliseconds) under transport behaviour [m];
    the random draw 1/2 gives the code 5500. *)
Definition at_ (now : Z) (m : MailOutcome) : Env.t :=
  Env.mk now (1 # 2)%Q "salt" m (Some "development") None.

Definition t0 : Z := 1700000000000.

(** A store holding one record for [u1], code 1234, expired at [t0]. *)
Definition s_expired : State :=
  mkState [u1; u2; u3] [VerificationOtp.mk 1 "u1" "1234" t0] 2 [].

Definition delivering (now : Z) : Env.t := at_ now MailDelivered.

(** The token the stand-in signer issues for [u1] at [t0]. *)
Definition token0 : string := "a@x.com#1700000600".

Fixpoint ends_with (data s : string) : bool :=
  String.eqb s data
  || match s with
     | EmptyString => false
     | String _ rest => ends_with data rest
     end.

(** A stand-in for [bcrypt.compare], matching [hash] under any salt. *)
Definition compare (data encrypted : string) : bool :=
  ends_with data encrypted.

(** [u4]: verified and online, with the password "hunter2". *)
Definition u4 : User.t :=
  User.mk "u4" "d@x.com" "+2348000000004" "Dayo" (hash "hunter2" 10 "salt")
    None "online" (Some (Settings.with_verified true preferences)).

Definition s_accounts : State := mkState [u1; u2; u3; u4] [] 1 [].

(** A registration for an address and a number nobody holds. *)
Definition registration : CreateUserDto.t :=
  CreateUserDto.mk "e@x.com" "+2348000000005" "Efe" "s3cret" "s3cret".

Definition inserted : NewRow.t :=
  NewRow.mk "u5" None "offline" (Some preferences).

(** A request at time [now] whose random draw is [r]. *)
Definition drawing (r : Q) (now : Z) : Env.t :=
  Env.mk now r "salt" MailDelivered (Some "development") None.
End Demo.

(** ** The service *)

Section UserService.

Set Default Proof Using "Type".

(** The token signer and the password hash are libraries the service
    calls; the service is verified for any behaviour of theirs. *)
Variable jwt_signAsync :
  Jwt.payload -> string (* secret *) -> string (* expiresIn *) -> Z (* now *)
  -> string.
Variable jwt_verify : string (* token *) -> string (* secret *) -> Z (* now *)
  -> Jwt.verified.
Variable bcrypt_hash : string (* data *) -> nat (* rounds *)
  -> string (* salt *) -> string.
Variable bcrypt_compare : string (* data *) -> string (* encrypted *) -> bool.

Definition by_email (email : string) (u : User.t) : bool :=
  String.eqb (User.email u) email.

Definition by_id (id : string) (u : User.t) : bool :=
  String.eqb (User.id u) id.

Definition by_userId (userId : string) (r : VerificationOtp.t) : bool :=
  String.eqb (VerificationOtp.userId r) userId.

Definition by_userId_otp (userId otp : string) (r : VerificationOtp.t) : bool :=
  String.eqb (VerificationOtp.userId r) userId
  && String.eqb (VerificationOtp.otp r) otp.

(** The code [generateOtp] draws. *)
Definition drawn_otp (env : Env.t) : string :=
  toString (floor_1000_plus_9000 (Env.random env)).

Definition otp_message (otp : string) : string :=
  "Your verification code is " ++ otp
  ++ " /n This code expires in 5 minutes.".

Definition generateOtp (email : string) (resend : bool) (env : Env.t)
    (s : State) : RequestResponse * State :=
  match userRepository.findOne (by_email email) s with
  | None => (failure "User not found", s)
  | Some user =>
      let otp := drawn_otp env in
      let oldOtp := otpRepository.findOne (by_userId (User.id user)) s in
      let s1 :=
        match oldOtp with
        | Some old =>
            if resend then otpRepository.delete (VerificationOtp.id old) s
            else s
        | None => s
        end in
      let (newOtp, s2) :=
        otpRepository.save (User.id user) otp (Env.now env) s1 in
      match mailerService.sendEmail "team" (User.email user)
              "Verification Code" (otp_message otp) env s2 with
      | inl msg => (failure (or_default msg "Failed to generate OTP"), s2)
      | inr s3 =>
          (mkResponse success "OTP generated successfully"
             (DOtp (User.id user) (VerificationOtp.expires_at newOtp)),
           s3)
      end
  end.

(** The record an issuance inserts. *)
Definition issued_record (user : User.t) (env : Env.t) (s : State)
  : VerificationOtp.t :=
  VerificationOtp.mk (next_otp_id s) (User.id user) (drawn_otp env)
    (Env.now env + OTP_TTL_MS).

(** The records an issuance keeps: all of them, or with [resend] all but
    those sharing the id of the first record found for the user. *)
Definition kept_records (user : User.t) (resend : bool) (s : State)
  : list VerificationOtp.t :=
  match otpRepository.findOne (by_userId (User.id user)) s with
  | Some old =>
      if resend
      then filter (fun r => negb (Nat.eqb (VerificationOtp.id r)
                                    (VerificationOtp.id old))) (otps s)
      else otps s
  | None => otps s
  end.

(** Modelled from the spec: the [User] and [Settings] entities
    ([entities/user.entity], [entities/settings.entity]) are not part of
    the sources, so what [update(id, { settings: { verified: true } })]
    does to the rest of the aggregate is taken from the spec: the verified
    flag, a member of the settings aggregate, is set to true.  A user
    without a settings object gets the object [{ verified: true }]. *)
Definition set_verified (u : User.t) : User.t :=
  User.with_settings
    (Some match User.settings u with
          | Some st => Settings.with_verified true st
          | None => Settings.only_verified true
          end)
    u.

(** The body of [verifyOtp] below its already-verified guard: the record
    lookup, the expiry test and the two writes. *)
Definition otp_lookup_outcome (user : User.t) (otp : string) (env : Env.t)
    (s : State) : RequestResponse * State :=
  match otpRepository.findOne (by_userId_otp (User.id user) otp) s with
  | None => (failure "Invalid OTP", s)
  | Some otpRecord =>
      if (VerificationOtp.expires_at otpRecord <? Env.now env)%Z
      then (failure "OTP has expired", s)
      else
        let s1 := userRepository.update (User.id user) set_verified s in
        let s2 := otpRepository.delete (VerificationOtp.id otpRecord) s1 in
        (mkResponse success "OTP verified successfully" DNull, s2)
  end.

Definition verifyOtp (email otp : string) (env : Env.t) (s : State)
  : RequestResponse * State :=
  match userRepository.findOne (by_email email) s with
  | None => (failure "User not found", s)
  | Some user =>
      if User.settings_and_verified user
      then (failure "User is already verified", s)
      else otp_lookup_outcome user otp env s
  end.

Definition baseUrl (env : Env.t) : string :=
  match Env.NODE_ENV env with
  | Some mode =>
      if String.eqb mode "development" then "http://localhost:3000"
      else interpolate (Env.FRONTEND_URL env)
  | None => interpolate (Env.FRONTEND_URL env)
  end.

Definition indent8 : string := "        ".

Definition reset_message (firstName resetLink : string) : string :=
  nl ++ indent8 ++ "Hi " ++ firstName ++ ", "
  ++ nl ++ indent8 ++ "<br/><br/>"
  ++ nl ++ indent8
  ++ "You requested to reset your password. Please click the link below to reset your password:"
  ++ nl ++ indent8 ++ "<br/><br/>"
  ++ nl ++ indent8 ++ "<a href=" ++ dquote ++ resetLink ++ dquote
  ++ " target=" ++ dquote ++ "_blank" ++ dquote
  ++ " rel=" ++ dquote ++ "noopener noreferrer" ++ dquote
  ++ ">Reset your password</a>"
  ++ nl ++ indent8 ++ "<br/><br/>"
  ++ nl ++ indent8
  ++ "If you did not request this change, please ignore this email."
  ++ nl ++ "      ".

Definition generateResetToken (payload : Jwt.payload) (env : Env.t)
    (s : State) : RequestResponse * State :=
  match userRepository.findOne (by_email (Jwt.email payload)) s with
  | None => (failure "User not found", s)
  | Some user =>
      let token :=
        jwt_signAsync payload JWT_SECRET JWT_EXPIRES_IN (Env.now env) in
      let s1 :=
        userRepository.update (User.id user)
          (User.with_resetPasswordToken (Some token)) s in
      let resetLink := baseUrl env ++ "/reset-password/" ++ token in
      match mailerService.sendEmail "team" (User.email user)
              "Password Reset"
              (reset_message (User.firstName user) resetLink) env s1 with
      | inl msg =>
          (failure (or_default msg "Failed to generate reset token"), s1)
      | inr s2 =>
          (mkResponse success "Password reset email sent successfully" DNull,
           s2)
      end
  end.

Definition resetPassword (payload : Jwt.payload) (env : Env.t) (s : State)
  : RequestResponse * State :=
  match userRepository.findOne (by_email (Jwt.email payload)) s with
  | None => (failure "User not found", s)
  | Some user =>
      let (otpResponse, s1) := generateResetToken payload env s in
      match result otpResponse with
      | error => (otpResponse, s1)
      | success =>
          (mkResponse success "Password reset email sent successfully" DNull,
           s1)
      end
  end.

(** [user.resetPasswordToken !== token] *)
Definition token_differs (user : User.t) (token : string) : bool :=
  match User.resetPasswordToken user with
  | Some stored => negb (String.eqb stored token)
  | None => true
  end.

Definition verifyResetToken (token : string) (env : Env.t) (s : State)
  : RequestResponse * State :=
  match jwt_verify token JWT_SECRET (Env.now env) with
  | Jwt.Throws msg => (failure (or_default msg "Failed to verify token"), s)
  | Jwt.Decoded None => (failure "Token expired", s)
  | Jwt.Decoded (Some decoded) =>
      match userRepository.findOne (by_email (Jwt.email decoded)) s with
      | None => (failure "User not found", s)
      | Some user =>
          if token_differs user token
          then (mkResponse error "Invalid token" (DValid false), s)
          else (mkResponse success "Token verified successfully"
                  (DValid true), s)
      end
  end.

Definition password_updated_message (firstName : string) : string :=
  nl ++ indent8 ++ "Dear " ++ firstName ++ ","
  ++ nl ++ indent8 ++ "<br/><br/>"
  ++ nl ++ indent8 ++ "Your password has been updated successfully."
  ++ nl ++ indent8 ++ "<br/><br/>"
  ++ nl ++ indent8
  ++ "If you did not request this change, please contact us immediately."
  ++ nl ++ "      ".

Definition updatePassword (token password : string) (env : Env.t)
    (s : State) : RequestResponse * State :=
  match jwt_verify token JWT_SECRET (Env.now env) with
  | Jwt.Throws msg => (failure (or_default msg "Failed to update password"), s)
  | Jwt.Decoded None => (failure "Token expired", s)
  | Jwt.Decoded (Some decoded) =>
      match userRepository.findOne (by_email (Jwt.email decoded)) s with
      | None => (failure "User not found", s)
      | Some user =>
          if token_differs user token
          then (failure "Invalid token", s)
          else
            let hashedPassword :=
              bcrypt_hash password BCRYPT_ROUNDS (Env.salt env) in
            let s1 :=
              userRepository.update (User.id user)
                (User.with_password hashedPassword) s in
            match mailerService.sendEmail "team" (User.email user)
                    "Password Updated"
                    (password_updated_message (User.firstName user))
                    env s1 with
            | inl msg =>
                (failure (or_default msg "Failed to update password"), s1)
            | inr s2 =>
                (mkResponse success "Password updated successfully" DNull, s2)
            end
      end
  end.

(** One entry of the [conditions] array of [checkOnlineConditions]: a
    check, which may itself throw, and the message of its failure. *)
Record Condition : Type := mkCondition {
  check : User.t -> Outcome bool;
  condition_message : string
}.

(** [user.settings.verified]: reading a property of [null] or [undefined]
    throws a [TypeError]. *)
Definition settings_verified (user : User.t) : Outcome bool :=
  match User.settings user with
  | Some st => Returned (Settings.verified st)
  | None => TypeError "Cannot read properties of null (reading 'verified')"
  end.

Definition conditions : list Condition :=
  [ mkCondition settings_verified "Email must be verified to come online." ].

Fixpoint check_each (cs : list Condition) (user : User.t) : Outcome unit :=
  match cs with
  | [] => Returned tt
  | condition :: rest =>
      match check condition user with
      | Returned true => check_each rest user
      | Returned false =>
          HttpException BAD_REQUEST (condition_message condition)
      | HttpException status msg => HttpException status msg
      | TypeError msg => TypeError msg
      end
  end.

Definition checkOnlineConditions (user : User.t) : Outcome unit :=
  check_each conditions user.

Definition toggleUserStatus (userId : string) (s : State)
  : Outcome RequestResponse * State :=
  match userRepository.findOne (by_id userId) s with
  | None => (HttpException NOT_FOUND "User not found.", s)
  | Some user =>
      let toggled :=
        if String.eqb (User.status user) "offline"
        then
          match checkOnlineConditions user with
          | Returned _ => Returned (User.with_status "online" user)
          | HttpException status msg => HttpException status msg
          | TypeError msg => TypeError msg
          end
        else Returned (User.with_status "offline" user) in
      match toggled with
      | Returned user' =>
          (Returned
             (mkResponse success
                ("User status updated to " ++ User.status user' ++ ".")
                (DUser user')),
           userRepository.save user' s)
      | HttpException status msg => (HttpException status msg, s)
      | TypeError msg => (TypeError msg, s)
      end
  end.

Definition getUserStatus (userId : string) (s : State)
  : Outcome RequestResponse :=
  match userRepository.findOne (by_id userId) s with
  | None => HttpException NOT_FOUND "User not found."
  | Some user =>
      Returned (mkResponse success "User status fetched successfully."
                  (DStatus (User.status user)))
  end.

(** ** Requests and the single-record invariant *)

(** The operations of the service, as requests against the store. *)
Inductive Request : Type :=
| GenerateOtp (email : string) (resend : bool)
| VerifyOtp (email otp : string)
| ResetPassword (payload : Jwt.payload)
| GenerateResetToken (payload : Jwt.payload)
| VerifyResetToken (token : string)
| UpdatePassword (token password : string)
| ToggleUserStatus (userId : string)
| GetUserStatus (userId : string).

(** The store a request leaves behind. *)
Definition handle (req : Request) (env : Env.t) (s : State) : State :=
  match req with
  | GenerateOtp email resend => snd (generateOtp email resend env s)
  | VerifyOtp email otp => snd (verifyOtp email otp env s)
  | ResetPassword payload => snd (resetPassword payload env s)
  | GenerateResetToken payload => snd (generateResetToken payload env s)
  | VerifyResetToken token => snd (verifyResetToken token env s)
  | UpdatePassword token password => snd (updatePassword token password env s)
  | ToggleUserStatus userId => snd (toggleUserStatus userId s)
  | GetUserStatus userId => s
  end.

Definition otp_count (userId : string) (s : State) : nat :=
  List.length (filter (by_userId userId) (otps s)).

(** At most one record per user id. *)
Definition single_otp (s : State) : Prop :=
  forall userId, otp_count userId s <= 1.

(** An issuance that leaves no older record of its user behind: it is a
    resend, or its user has no record (or does not exist). *)
Definition issuance_replaces (req : Request) (s : State) : Prop :=
  match req with
  | GenerateOtp email false =>
      match userRepository.findOne (by_email email) s with
      | Some user =>
          otpRepository.findOne (by_userId (User.id user)) s = None
      | None => True
      end
  | _ => True
  end.

(** ** Account operations *)

Definition by_phone (phone : string) (u : User.t) : bool :=
  String.eqb (User.phone u) phone.

Definition by_id_email (id email : string) (u : User.t) : bool :=
  String.eqb (User.id u) id && String.eqb (User.email u) email.

(** The row [create] saves: the DTO without [confirmPassword], the hash in
    place of the password, and what the store fills in. *)
Definition created_user (dto : CreateUserDto.t) (hashedPassword : string)
    (fresh : NewRow.t) : User.t :=
  User.mk (NewRow.id fresh) (CreateUserDto.email dto)
    (CreateUserDto.phone dto) (CreateUserDto.firstName dto) hashedPassword
    (NewRow.resetPasswordToken fresh) (NewRow.status fresh)
    (NewRow.settings fresh).

(** The [catch] of [create]: whatever was thrown leaves as a
    [BadRequestException] with the same message. *)
Definition rethrow_create {A : Type} (msg : string) : Outcome A :=
  HttpException BAD_REQUEST (or_default msg "Failed to create user").

(** [create] of user.service.  [env] is read by the hash and the welcome
    mail, [env_otp] by the [generateOtp] call that follows. *)
Definition create (createUserDto : CreateUserDto.t) (fresh : NewRow.t)
    (env env_otp : Env.t) (s : State) : Outcome RequestResponse * State :=
  match userRepository.findOne
          (by_email (CreateUserDto.email createUserDto)) s with
  | Some _ => (rethrow_create "User with email already exists", s)
  | None =>
      match userRepository.findOne
              (by_phone (CreateUserDto.phone createUserDto)) s with
      | Some _ => (rethrow_create "User with phone number already exists", s)
      | None =>
          if negb (String.eqb (CreateUserDto.password createUserDto)
                     (CreateUserDto.confirmPassword createUserDto))
          then (rethrow_create "Passwords do not match", s)
          else
            let hashedPassword :=
              bcrypt_hash (CreateUserDto.password createUserDto)
                BCRYPT_ROUNDS (Env.salt env) in
            let user := created_user createUserDto hashedPassword fresh in
            let s1 := userRepository.save_new user s in
            match mailerService.sendEmail "team"
                    (CreateUserDto.email createUserDto)
                    "Welcome to Footiedrop!"
                    ("Welcome to our platform, "
                     ++ CreateUserDto.firstName createUserDto ++ "!")
                    env s1 with
            | inl msg => (rethrow_create msg, s1)
            | inr s2 =>
                let (otpResponse, s3) :=
                  generateOtp (CreateUserDto.email createUserDto) false
                    env_otp s2 in
                match result otpResponse with
                | error => (rethrow_create (message otpResponse), s3)
                | success =>
                    (Returned (mkResponse success "User created successfully"
                                 (DUser user)),
                     s3)
                end
            end
      end
  end.

(** [changeEmail] of user.service. *)
Definition changeEmail (email newEmail : string) (s : State)
  : RequestResponse * State :=
  match userRepository.findOne (by_email email) s with
  | None => (failure "User not found", s)
  | Some user =>
      if String.eqb (User.email user) newEmail
      then (failure "Emails are the same", s)
      else
        match userRepository.findOne (by_email newEmail) s with
        | Some _ => (failure "User with email already exists", s)
        | None =>
            (mkResponse success "Email updated successfully" DNull,
             userRepository.update (User.id user) (User.with_email newEmail) s)
        end
  end.

(** [changeEmail] of settings.service: the user is looked up by id and
    email together. *)
Definition settings_changeEmail (id email newEmail : string) (s : State)
  : RequestResponse * State :=
  match userRepository.findOne (by_id_email id email) s with
  | None => (failure "User not found", s)
  | Some user =>
      if String.eqb (User.email user) newEmail
      then (failure "Emails are the same", s)
      else
        match userRepository.findOne (by_email newEmail) s with
        | Some _ => (failure "User with email already exists", s)
        | None =>
            (mkResponse success "Email updated successfully" DNull,
             userRepository.update (User.id user) (User.with_email newEmail) s)
        end
  end.

Definition changePhoneNumber (userId newPhoneNumber : string) (s : State)
  : RequestResponse * State :=
  match userRepository.findOne (by_id userId) s with
  | None => (failure "User not found", s)
  | Some user =>
      (mkResponse success "Phone number updated successfully" DNull,
       userRepository.update (User.id user) (User.with_phone newPhoneNumber) s)
  end.

(** [changePassword] of settings.service. *)
Definition changePassword (userId currentPassword newPassword : string)
    (env : Env.t) (s : State) : RequestResponse * State :=
  match userRepository.findOne (by_id userId) s with
  | None => (failure "User not found", s)
  | Some user =>
      if negb (bcrypt_compare currentPassword (User.password user))
      then (failure "Current password is incorrect", s)
      else
        let hashedPassword :=
          bcrypt_hash newPassword BCRYPT_ROUNDS (Env.salt env) in
        (mkResponse success "Password updated successfully" DNull,
         userRepository.update (User.id user)
           (User.with_password hashedPassword) s)
  end.

(** The three assignments of [updateCommunicationPreferences] on a loaded
    settings object. *)
Definition assign_preferences (dto : UpdateCommunicationPreferencesDto.t)
    (st : Settings.t) : Settings.t :=
  Settings.with_securityTwoFactorAuth
    (UpdateCommunicationPreferencesDto.securityTwoFactorAuth dto)
    (Settings.with_notificationsSms
       (UpdateCommunicationPreferencesDto.notificationsSms dto)
       (Settings.with_notificationsEmail
          (UpdateCommunicationPreferencesDto.notificationsEmail dto) st)).

(** Assigning to a property of [null] throws a [TypeError]; inside
    [updateCommunicationPreferences] the [catch] turns it into an error
    response. *)
Definition updateCommunicationPreferences
    (dto : UpdateCommunicationPreferencesDto.t) (userId : string) (s : State)
  : RequestResponse * State :=
  match userRepository.findOne (by_id userId) s with
  | None => (failure "User not found", s)
  | Some user =>
      match User.settings user with
      | None =>
          (failure
             (or_default
                "Cannot set properties of null (setting 'notificationsEmail')"
                "Failed to update communication preferences"),
           s)
      | Some st =>
          let user' :=
            User.with_settings (Some (assign_preferences dto st)) user in
          (mkResponse success
             "Communication preferences updated successfully" DNull,
           userRepository.save user' s)
      end
  end.

Definition getSettings (userId : string) (s : State)
  : Outcome (option Settings.t) :=
  match userRepository.findOne (by_id userId) s with
  | None => HttpException NOT_FOUND "User not found"
  | Some user => Returned (User.settings user)
  end.

(** [updateLanguage] has no [try]: a missing user and a missing settings
    object both leave as exceptions. *)
Definition updateLanguage (userId : string)
    (changeLanguageDto : ChangeLanguageDto.t) (s : State)
  : Outcome (option Settings.t) * State :=
  match userRepository.findOne (by_id userId) s with
  | None => (HttpException NOT_FOUND "User not found", s)
  | Some user =>
      match User.settings user with
      | None =>
          (TypeError "Cannot set properties of null (setting 'language')", s)
      | Some st =>
          let user' :=
            User.with_settings
              (Some (Settings.with_language
                       (ChangeLanguageDto.language changeLanguageDto) st))
              user in
          (Returned (User.settings user'), userRepository.save user' s)
      end
  end.

(** The operations outside the credential core, as requests. *)
Inductive AccountRequest : Type :=
| Create (createUserDto : CreateUserDto.t) (fresh : NewRow.t) (env_otp : Env.t)
| ChangeEmail (email newEmail : string)
| SettingsChangeEmail (id email newEmail : string)
| ChangePhoneNumber (userId newPhoneNumber : string)
| ChangePassword (userId currentPassword newPassword : string)
| UpdateCommunicationPreferences
    (dto : UpdateCommunicationPreferencesDto.t) (userId : string)
| UpdateLanguage (userId : string) (changeLanguageDto : ChangeLanguageDto.t)
| GetSettings (userId : string).

Definition handle_account (req : AccountRequest) (env : Env.t) (s : State)
  : State :=
  match req with
  | Create dto fresh env_otp => snd (create dto fresh env env_otp s)
  | ChangeEmail email newEmail => snd (changeEmail email newEmail s)
  | SettingsChangeEmail id email newEmail =>
      snd (settings_changeEmail id email newEmail s)
  | ChangePhoneNumber userId newPhoneNumber =>
      snd (changePhoneNumber userId newPhoneNumber s)
  | ChangePassword userId currentPassword newPassword =>
      snd (changePassword userId currentPassword newPassword env s)
  | UpdateCommunicationPreferences dto userId =>
      snd (updateCommunicationPreferences dto userId s)
  | UpdateLanguage userId dto => snd (updateLanguage userId dto s)
  | GetSettings userId => s
  end.

(** Ids are the primary key of the user table. *)
Definition unique_ids (s : State) : Prop :=
  NoDup (map User.id (users s)).

Definition unique_emails (s : State) : Prop :=
  NoDup (map User.email (users s)).

(** What no request of the credential core changes in a row: the
    identity and contact fields; and a verified row stays verified. *)
Definition credential_frame (u u' : User.t) : Prop :=
  User.id u' = User.id u
  /\ User.email u' = User.email u
  /\ User.phone u' = User.phone u
  /\ User.firstName u' = User.firstName u
  /\ (User.settings_and_verified u = true ->
      User.settings_and_verified u' = true).

(** What no account request changes in a row. *)
Definition account_frame (u u' : User.t) : Prop :=
  User.id u' = User.id u
  /\ User.status u' = User.status u
  /\ User.resetPasswordToken u' = User.resetPasswordToken u
  /\ (User.settings_and_verified u = true ->
      User.settings_and_verified u' = true).

(** The id the store generates for [create] is not in use. *)
Definition fresh_id (req : AccountRequest) (s : State) : Prop :=
  match req with
  | Create _ fresh _ => ~ In (NewRow.id fresh) (map User.id (users s))
  | _ => True
  end.

(** Rows an account request relates by [account_frame], with the email
    kept as well. *)
Definition settled (u u' : User.t) : Prop :=
  account_frame u u' /\ User.email u' = User.email u.

(** ** Repository lemmas *)

Lemma find_map_stable {A : Type} (p : A -> bool) (g : A -> A) (l : list A) :
  (forall a, p (g a) = p a) ->
  find p (map g l) = option_map g (find p l).
Proof.
  intros Hstable. induction l as [|a l IH]; simpl.
  - reflexivity.
  - rewrite Hstable. destruct (p a); [reflexivity | exact IH].
Qed.

Lemma find_app_miss {A : Type} (p : A -> bool) (l l' : list A) :
  find p l = None -> find p (l ++ l') = find p l'.
Proof.
  induction l as [|a l IH]; simpl; intros Hmiss.
  - reflexivity.
  - destruct (p a); [discriminate | auto].
Qed.

(** A partial that leaves the email alone does not disturb lookups by
    email: the same row is found, with the partial applied when its id is
    the updated one. *)
Lemma findOne_by_email_update (email id : string) (f : User.t -> User.t)
    (s : State) :
  (forall u, User.email (f u) = User.email u) ->
  userRepository.findOne (by_email email) (userRepository.update id f s)
  = option_map (fun u => if String.eqb (User.id u) id then f u else u)
      (userRepository.findOne (by_email email) s).
Proof.
  intros Hemail. unfold userRepository.findOne, userRepository.update. simpl.
  apply find_map_stable. intros u. unfold by_email.
  destruct (String.eqb (User.id u) id); [rewrite Hemail|]; reflexivity.
Qed.

(** ** One-time passcodes: issuance *)

Lemma generateOtp_store (email : string) (resend : bool) (env : Env.t)
    (s : State) (user : User.t) :
  userRepository.findOne (by_email email) s = Some user ->
  users (snd (generateOtp email resend env s)) = users s
  /\ otps (snd (generateOtp email resend env s))
     = (kept_records user resend s ++ [issued_record user env s])%list
  /\ next_otp_id (snd (generateOtp email resend env s)) = S (next_otp_id s).
Proof.
  intros Hfind. unfold generateOtp, kept_records, issued_record.
  rewrite Hfind.
  destruct (otpRepository.findOne (by_userId (User.id user)) s) as [old|];
    [destruct resend|];
    unfold otpRepository.save, mailerService.sendEmail;
    destruct (Env.mail env); simpl; auto.
Qed.

Lemma generateOtp_response (email : string) (resend : bool) (env : Env.t)
    (s : State) (user : User.t) :
  userRepository.findOne (by_email email) s = Some user ->
  fst (generateOtp email resend env s)
  = match Env.mail env with
    | MailRejects msg => failure (or_default msg "Failed to generate OTP")
    | _ => mkResponse success "OTP generated successfully"
             (DOtp (User.id user) (Env.now env + OTP_TTL_MS))
    end.
Proof.
  intros Hfind. unfold generateOtp. rewrite Hfind.
  destruct (otpRepository.findOne (by_userId (User.id user)) s) as [old|];
    [destruct resend|];
    unfold otpRepository.save, mailerService.sendEmail;
    destruct (Env.mail env); reflexivity.
Qed.

Lemma by_userId_otp_implies (userId otp : string) (r : VerificationOtp.t) :
  by_userId_otp userId otp r = true -> by_userId userId r = true.
Proof.
  unfold by_userId_otp, by_userId. intros H.
  apply andb_true_iff in H. exact (proj1 H).
Qed.

Lemma find_none_weaken {A : Type} (p q : A -> bool) (l : list A) :
  (forall a, q a = true -> p a = true) ->
  find p l = None -> find q l = None.
Proof.
  intros Himp. induction l as [|a l IH]; simpl; [reflexivity|].
  destruct (p a) eqn:Hp; [discriminate|]. intros Hmiss.
  destruct (q a) eqn:Hq.
  - apply Himp in Hq. congruence.
  - auto.
Qed.

(** ** One-time passcodes: verification *)

Lemma verifyOtp_unverified (email otp : string) (env : Env.t) (s : State)
    (user : User.t) :
  userRepository.findOne (by_email email) s = Some user ->
  User.settings_and_verified user = false ->
  verifyOtp email otp env s = otp_lookup_outcome user otp env s.
Proof.
  intros Hfind Hflag. unfold verifyOtp. rewrite Hfind, Hflag. reflexivity.
Qed.

(** A successful [verifyOtp] went through every check and did both writes. *)
Lemma verifyOtp_success_inv (email otp : string) (env : Env.t) (s : State) :
  result (fst (verifyOtp email otp env s)) = success ->
  exists user otpRecord,
    userRepository.findOne (by_email email) s = Some user
    /\ User.settings_and_verified user = false
    /\ otpRepository.findOne (by_userId_otp (User.id user) otp) s
       = Some otpRecord
    /\ (Env.now env <= VerificationOtp.expires_at otpRecord)%Z
    /\ verifyOtp email otp env s
       = (mkResponse success "OTP verified successfully" DNull,
          otpRepository.delete (VerificationOtp.id otpRecord)
            (userRepository.update (User.id user) set_verified s)).
Proof.
  unfold verifyOtp, otp_lookup_outcome.
  destruct (userRepository.findOne (by_email email) s) as [user|];
    [|simpl; discriminate].
  destruct (User.settings_and_verified user) eqn:Hflag; [simpl; discriminate|].
  destruct (otpRepository.findOne _ s) as [r|] eqn:Hrec; [|simpl; discriminate].
  destruct (_ <? _)%Z eqn:Hexp; [simpl; discriminate|].
  intros _. exists user, r. apply Z.ltb_ge in Hexp. auto.
Qed.

Lemma set_verified_flag (u : User.t) :
  User.settings_and_verified (set_verified u) = true.
Proof.
  unfold set_verified, User.settings_and_verified. simpl.
  destruct (User.settings u); reflexivity.
Qed.

Lemma set_verified_frame (u : User.t) :
  User.same_but_verified u (set_verified u).
Proof.
  unfold User.same_but_verified, set_verified, User.preferences. simpl.
  destruct (User.settings u); simpl; repeat split; reflexivity.
Qed.

(** After the two writes of a successful verification, the lookup by the
    same email finds the same user, now verified. *)
Lemma findOne_after_verification (email : string) (id : nat) (s : State)
    (user : User.t) :
  userRepository.findOne (by_email email) s = Some user ->
  userRepository.findOne (by_email email)
    (otpRepository.delete id
       (userRepository.update (User.id user) set_verified s))
  = Some (set_verified user).
Proof.
  intros Hfind.
  change (userRepository.findOne (by_email email)
            (userRepository.update (User.id user) set_verified s)
          = Some (set_verified user)).
  rewrite findOne_by_email_update by reflexivity.
  rewrite Hfind. simpl. rewrite String.eqb_refl. reflexivity.
Qed.

(** C10. A stored user whose settings aggregate is absent passes the
    already-verified guard of [verifyOtp]: the call proceeds to the OTP
    lookup, whose outcome it returns.  And the response "User is already
    verified" is only ever produced for a user that has a settings object
    whose [verified] field is true. *)
Theorem verifyOtp_guard_needs_settings_object
    (email otp : string) (env : Env.t) (s : State) :
  (forall user,
      userRepository.findOne (by_email email) s = Some user ->
      User.settings user = None ->
      verifyOtp email otp env s = otp_lookup_outcome user otp env s)
  /\ (message (fst (verifyOtp email otp env s)) = "User is already verified" ->
      exists user st,
        userRepository.findOne (by_email email) s = Some user
        /\ User.settings user = Some st
        /\ Settings.verified st = true).
Proof.
  split.
  - intros user Hfind Hnone. apply verifyOtp_unverified; [exact Hfind|].
    unfold User.settings_and_verified. rewrite Hnone. reflexivity.
  - unfold verifyOtp, otp_lookup_outcome.
    destruct (userRepository.findOne (by_email email) s) as [user|] eqn:Hfind;
      [|simpl; discriminate].
    unfold User.settings_and_verified.
    destruct (User.settings user) as [st|] eqn:Hst.
    + destruct (Settings.verified st) eqn:Hv.
      * intros _. exists user, st. auto.
      * destruct (otpRepository.findOne _ s) as [r|]; [|simpl; discriminate].
        destruct (_ <? _)%Z; simpl; discriminate.
    + destruct (otpRepository.findOne _ s) as [r|]; [|simpl; discriminate].
      destruct (_ <? _)%Z; simpl; discriminate.
Qed.

(** C7, as the code has it.  When the record that [verifyOtp] looks up for
    the submitted code (if there is one) has [expires_at] strictly before
    the time of the call, the call never succeeds and writes nothing.  For
    a user that is not yet verified the failure is "OTP has expired" when
    the code matches a stored record, and "Invalid OTP" when it matches
    none: the lookup comes before the expiry test. *)
Theorem verifyOtp_after_expiry
    (email otp : string) (env : Env.t) (s : State) (user : User.t) :
  userRepository.findOne (by_email email) s = Some user ->
  (forall r,
      otpRepository.findOne (by_userId_otp (User.id user) otp) s = Some r ->
      (VerificationOtp.expires_at r < Env.now env)%Z) ->
  result (fst (verifyOtp email otp env s)) = error
  /\ snd (verifyOtp email otp env s) = s
  /\ (User.settings_and_verified user = false ->
      match otpRepository.findOne (by_userId_otp (User.id user) otp) s with
      | Some _ =>
          fst (verifyOtp email otp env s) = failure "OTP has expired"
          /\ kind_of (fst (verifyOtp email otp env s)) = Some Expired
      | None =>
          fst (verifyOtp email otp env s) = failure "Invalid OTP"
          /\ kind_of (fst (verifyOtp email otp env s)) = Some InvalidCredential
      end).
Proof.
  intros Hfind Hlate. unfold verifyOtp, otp_lookup_outcome. rewrite Hfind.
  destruct (User.settings_and_verified user) eqn:Hflag.
  - repeat split; try reflexivity. discriminate.
  - destruct (otpRepository.findOne _ s) as [r|] eqn:Hrec.
    + specialize (Hlate r eq_refl). apply Z.ltb_lt in Hlate. rewrite Hlate.
      repeat split; reflexivity.
    + repeat split; reflexivity.
Qed.

(** C5, as the code has it.  For a user with no prior record, after an
    issuance and a first successful [verifyOtp] with the issued code, a
    second [verifyOtp] with the same email and code fails with "User is
    already verified" and writes nothing: the already-verified guard
    answers before the (now deleted) record is looked up. *)
Theorem second_verifyOtp_already_verified
    (email : string) (resend : bool) (env1 env2 env3 : Env.t) (s : State)
    (user : User.t) :
  userRepository.findOne (by_email email) s = Some user ->
  otpRepository.findOne (by_userId (User.id user)) s = None ->
  let s1 := snd (generateOtp email resend env1 s) in
  let code := drawn_otp env1 in
  result (fst (verifyOtp email code env2 s1)) = success ->
  let s2 := snd (verifyOtp email code env2 s1) in
  verifyOtp email code env3 s2 = (failure "User is already verified", s2)
  /\ kind_of (fst (verifyOtp email code env3 s2)) = Some AlreadyVerified.
Proof.
  intros Hfind _ s1 code Hok s2.
  destruct (verifyOtp_success_inv _ _ _ _ Hok)
    as (user1 & r & Hfind1 & _ & _ & _ & Hrun).
  assert (Hfind2 : userRepository.findOne (by_email email) s2
                   = Some (set_verified user1)).
  { unfold s2. rewrite Hrun. simpl.
    apply findOne_after_verification. exact Hfind1. }
  assert (Hrun2 : verifyOtp email code env3 s2
                  = (failure "User is already verified", s2)).
  { unfold verifyOtp. rewrite Hfind2, set_verified_flag. reflexivity. }
  split; [exact Hrun2 | rewrite Hrun2; reflexivity].
Qed.

(** C9, as the code has it.  For an existing user that is not verified
    and has no prior record, an issuance stores its record and answers
    with success, the user's id and the expiry time, unless the mail send
    rejects: then it answers with an error carrying the thrown message.
    Either way a [verifyOtp] that follows it with the same email and the
    issued code, no later than that expiry, succeeds, and the user found
    under the email is then verified. *)
Theorem generateOtp_then_verifyOtp
    (email : string) (resend : bool) (env1 env2 : Env.t) (s : State)
    (user : User.t) :
  userRepository.findOne (by_email email) s = Some user ->
  User.settings_and_verified user = false ->
  otpRepository.findOne (by_userId (User.id user)) s = None ->
  (Env.now env2 <= Env.now env1 + OTP_TTL_MS)%Z ->
  let s1 := snd (generateOtp email resend env1 s) in
  let s2 := snd (verifyOtp email (drawn_otp env1) env2 s1) in
  fst (generateOtp email resend env1 s)
  = match Env.mail env1 with
    | MailRejects msg => failure (or_default msg "Failed to generate OTP")
    | _ => mkResponse success "OTP generated successfully"
             (DOtp (User.id user) (Env.now env1 + OTP_TTL_MS))
    end
  /\ fst (verifyOtp email (drawn_otp env1) env2 s1)
     = mkResponse success "OTP verified successfully" DNull
  /\ exists user',
       userRepository.findOne (by_email email) s2 = Some user'
       /\ User.id user' = User.id user
       /\ User.settings_and_verified user' = true.
Proof.
  intros Hfind Hflag Hnone Hnow s1 s2.
  destruct (generateOtp_store email resend env1 s user Hfind)
    as (Husers & Hotps & _).
  fold s1 in Husers, Hotps.
  assert (Hfind1 : userRepository.findOne (by_email email) s1 = Some user).
  { unfold userRepository.findOne. rewrite Husers. exact Hfind. }
  assert (Hrec : otpRepository.findOne
                   (by_userId_otp (User.id user) (drawn_otp env1)) s1
                 = Some (issued_record user env1 s)).
  { unfold otpRepository.findOne. rewrite Hotps.
    unfold kept_records. rewrite Hnone. rewrite find_app_miss.
    - simpl. unfold by_userId_otp. simpl. rewrite !String.eqb_refl.
      reflexivity.
    - eapply find_none_weaken; [|exact Hnone].
      intros r. apply by_userId_otp_implies. }
  assert (Hrun : verifyOtp email (drawn_otp env1) env2 s1
                 = (mkResponse success "OTP verified successfully" DNull,
                    otpRepository.delete (next_otp_id s)
                      (userRepository.update (User.id user) set_verified s1))).
  { rewrite (verifyOtp_unverified _ _ _ _ _ Hfind1 Hflag).
    unfold otp_lookup_outcome. rewrite Hrec. simpl.
    apply Z.ltb_ge in Hnow. rewrite Hnow. reflexivity. }
  split; [|split].
  - exact (generateOtp_response _ _ _ _ _ Hfind).
  - rewrite Hrun. reflexivity.
  - exists (set_verified user). unfold s2. rewrite Hrun. simpl.
    rewrite (findOne_after_verification _ _ _ _ Hfind1).
    split; [reflexivity|]. split; [reflexivity | apply set_verified_flag].
Qed.

(** C6.  A successful [verifyOtp] leaves the store as it was but for two
    things.  The user rows stay in place: a row with another id is
    untouched, and a row with the verified user's id keeps every field and
    every preference of its settings aggregate and has the verified flag
    true.  The records stay but those with the id of the consumed record.
    The id counter and the outbox are untouched. *)
Theorem verifyOtp_success_frame
    (email otp : string) (env : Env.t) (s : State) :
  result (fst (verifyOtp email otp env s)) = success ->
  let s' := snd (verifyOtp email otp env s) in
  exists user otpRecord,
    userRepository.findOne (by_email email) s = Some user
    /\ otpRepository.findOne (by_userId_otp (User.id user) otp) s
       = Some otpRecord
    /\ Forall2
         (fun u u' =>
            if String.eqb (User.id u) (User.id user)
            then User.same_but_verified u u'
                 /\ User.settings_and_verified u' = true
            else u' = u)
         (users s) (users s')
    /\ (forall r,
          In r (otps s') <->
          In r (otps s) /\ VerificationOtp.id r <> VerificationOtp.id otpRecord)
    /\ next_otp_id s' = next_otp_id s
    /\ outbox s' = outbox s.
Proof.
  intros Hok s'.
  destruct (verifyOtp_success_inv _ _ _ _ Hok)
    as (user & r & Hfind & _ & Hrec & _ & Hrun).
  exists user, r. unfold s'. rewrite Hrun. simpl.
  split; [exact Hfind|]. split; [exact Hrec|]. split; [|split; [|split]].
  - induction (users s) as [|u l IH]; simpl; constructor; [|exact IH].
    destruct (String.eqb (User.id u) (User.id user)).
    + split; [apply set_verified_frame | apply set_verified_flag].
    + reflexivity.
  - intros x. rewrite filter_In, negb_true_iff, Nat.eqb_neq. reflexivity.
  - reflexivity.
  - reflexivity.
Qed.

(** ** The single-record invariant *)

Lemma filter_filter_length {A : Type} (p q : A -> bool) (l : list A) :
  List.length (filter p (filter q l)) <= List.length (filter p l).
Proof.
  induction l as [|a l IH]; simpl; [lia|].
  destruct (q a); simpl; destruct (p a); simpl; lia.
Qed.

Lemma find_none_filter {A : Type} (p : A -> bool) (l : list A) :
  find p l = None -> filter p l = [].
Proof.
  induction l as [|a l IH]; simpl; [reflexivity|].
  destruct (p a); [discriminate | exact IH].
Qed.

Lemma short_list_unique {A : Type} (l : list A) (a b : A) :
  List.length l <= 1 -> In a l -> In b l -> a = b.
Proof.
  destruct l as [|x [|y l]]; simpl; intros Hlen Ha Hb.
  - contradiction.
  - destruct Ha as [<-|[]], Hb as [<-|[]]. reflexivity.
  - lia.
Qed.

(** Under the invariant a resend leaves no record of its user. *)
Lemma resend_clears_user (s : State) (userId : string)
    (old : VerificationOtp.t) :
  single_otp s ->
  otpRepository.findOne (by_userId userId) s = Some old ->
  filter (by_userId userId)
    (filter (fun r => negb (Nat.eqb (VerificationOtp.id r)
                              (VerificationOtp.id old))) (otps s))
  = [].
Proof.
  intros Hinv Hold.
  destruct (filter (by_userId userId) (filter _ (otps s))) as [|r rest] eqn:Hf;
    [reflexivity|].
  exfalso.
  assert (Hr : In r (filter (by_userId userId)
                       (filter (fun r => negb (Nat.eqb (VerificationOtp.id r)
                                                 (VerificationOtp.id old)))
                          (otps s)))).
  { rewrite Hf. left. reflexivity. }
  apply filter_In in Hr as [Hr Hru]. apply filter_In in Hr as [Hrin Hrid].
  apply find_some in Hold as [Hoin Hou].
  assert (Heq : r = old).
  { apply (short_list_unique (filter (by_userId userId) (otps s))).
    - apply Hinv.
    - apply filter_In. auto.
    - apply filter_In. auto. }
  subst r. rewrite Nat.eqb_refl in Hrid. discriminate.
Qed.

Lemma kept_records_count (user : User.t) (resend : bool) (s : State)
    (userId : string) :
  List.length (filter (by_userId userId) (kept_records user resend s))
  <= otp_count userId s.
Proof.
  unfold kept_records, otp_count.
  destruct (otpRepository.findOne _ s) as [old|]; [destruct resend|];
    auto using filter_filter_length.
Qed.

Lemma kept_records_own_count (user : User.t) (resend : bool) (s : State) :
  single_otp s ->
  resend = true
  \/ otpRepository.findOne (by_userId (User.id user)) s = None ->
  filter (by_userId (User.id user)) (kept_records user resend s) = [].
Proof.
  intros Hinv Hcase. unfold kept_records.
  destruct (otpRepository.findOne _ s) as [old|] eqn:Hold.
  - destruct Hcase as [->|Hnone]; [|discriminate].
    apply resend_clears_user; assumption.
  - apply find_none_filter. exact Hold.
Qed.

Lemma generateOtp_single_otp (email : string) (resend : bool) (env : Env.t)
    (s : State) :
  single_otp s ->
  issuance_replaces (GenerateOtp email resend) s ->
  single_otp (snd (generateOtp email resend env s)).
Proof.
  intros Hinv Hrep.
  destruct (userRepository.findOne (by_email email) s) as [user|] eqn:Hfind.
  - destruct (generateOtp_store email resend env s user Hfind)
      as (_ & Hotps & _).
    intros userId. unfold otp_count. rewrite Hotps, filter_app, length_app.
    simpl. unfold by_userId at 2. simpl.
    destruct (String.eqb (User.id user) userId) eqn:Hid.
    + apply String.eqb_eq in Hid. subst userId.
      rewrite (kept_records_own_count user resend s Hinv).
      * simpl. lia.
      * simpl in Hrep. rewrite Hfind in Hrep. destruct resend; auto.
    + simpl. pose proof (kept_records_count user resend s userId).
      specialize (Hinv userId). lia.
  - unfold generateOtp. rewrite Hfind. exact Hinv.
Qed.

Lemma verifyOtp_otps (email otp : string) (env : Env.t) (s : State) :
  otps (snd (verifyOtp email otp env s)) = otps s
  \/ exists id,
       otps (snd (verifyOtp email otp env s))
       = filter (fun r => negb (Nat.eqb (VerificationOtp.id r) id)) (otps s).
Proof.
  unfold verifyOtp, otp_lookup_outcome.
  destruct (userRepository.findOne _ s) as [user|]; [|left; reflexivity].
  destruct (User.settings_and_verified user); [left; reflexivity|].
  destruct (otpRepository.findOne _ s) as [r|]; [|left; reflexivity].
  destruct (_ <? _)%Z; [left; reflexivity|].
  right. exists (VerificationOtp.id r). reflexivity.
Qed.

Lemma generateResetToken_otps (payload : Jwt.payload) (env : Env.t)
    (s : State) :
  otps (snd (generateResetToken payload env s)) = otps s.
Proof.
  unfold generateResetToken.
  destruct (userRepository.findOne _ s) as [user|]; [|reflexivity].
  unfold mailerService.sendEmail. destruct (Env.mail env); reflexivity.
Qed.

Lemma resetPassword_otps (payload : Jwt.payload) (env : Env.t) (s : State) :
  otps (snd (resetPassword payload env s)) = otps s.
Proof.
  unfold resetPassword.
  destruct (userRepository.findOne _ s) as [user|]; [|reflexivity].
  pose proof (generateResetToken_otps payload env s) as H.
  destruct (generateResetToken payload env s) as [r s1]. simpl in H.
  destruct (result r); exact H.
Qed.

Lemma verifyResetToken_state (token : string) (env : Env.t) (s : State) :
  snd (verifyResetToken token env s) = s.
Proof.
  unfold verifyResetToken.
  destruct (jwt_verify _ _ _) as [[decoded|]|msg]; try reflexivity.
  destruct (userRepository.findOne _ s) as [user|]; [|reflexivity].
  destruct (token_differs user token); reflexivity.
Qed.

Lemma updatePassword_otps (token password : string) (env : Env.t)
    (s : State) :
  otps (snd (updatePassword token password env s)) = otps s.
Proof.
  unfold updatePassword.
  destruct (jwt_verify _ _ _) as [[decoded|]|msg]; try reflexivity.
  destruct (userRepository.findOne _ s) as [user|]; [|reflexivity].
  destruct (token_differs user token); [reflexivity|].
  unfold mailerService.sendEmail. destruct (Env.mail env); reflexivity.
Qed.

Lemma toggleUserStatus_otps (userId : string) (s : State) :
  otps (snd (toggleUserStatus userId s)) = otps s.
Proof.
  unfold toggleUserStatus.
  destruct (userRepository.findOne _ s) as [user|]; [|reflexivity].
  destruct (String.eqb (User.status user) "offline"); [|reflexivity].
  destruct (checkOnlineConditions user); reflexivity.
Qed.

Lemma single_otp_same_otps (s s' : State) :
  otps s' = otps s -> single_otp s -> single_otp s'.
Proof.
  intros Heq Hinv userId. unfold otp_count. rewrite Heq. apply Hinv.
Qed.

(** C2, as the code has it.  The invariant "at most one record per user
    id" is kept by every request other than an issuance without [resend]
    for a user that already has a record; such an issuance keeps the old
    record and adds one, so the user's count goes up by one. *)
Theorem single_otp_preserved (req : Request) (env : Env.t) (s : State) :
  (single_otp s -> issuance_replaces req s -> single_otp (handle req env s))
  /\ (forall email user old,
        req = GenerateOtp email false ->
        userRepository.findOne (by_email email) s = Some user ->
        otpRepository.findOne (by_userId (User.id user)) s = Some old ->
        otp_count (User.id user) (handle req env s)
        = S (otp_count (User.id user) s)).
Proof.
  split.
  - intros Hinv Hrep. destruct req; simpl.
    + apply generateOtp_single_otp; assumption.
    + destruct (verifyOtp_otps email otp env s) as [Heq|[id Heq]].
      * exact (single_otp_same_otps _ _ Heq Hinv).
      * intros userId. unfold otp_count. rewrite Heq.
        pose proof (filter_filter_length (by_userId userId)
                      (fun r => negb (Nat.eqb (VerificationOtp.id r) id))
                      (otps s)).
        specialize (Hinv userId). unfold otp_count in Hinv. lia.
    + exact (single_otp_same_otps _ _ (resetPassword_otps _ _ _) Hinv).
    + exact (single_otp_same_otps _ _ (generateResetToken_otps _ _ _) Hinv).
    + rewrite verifyResetToken_state. exact Hinv.
    + exact (single_otp_same_otps _ _ (updatePassword_otps _ _ _ _) Hinv).
    + exact (single_otp_same_otps _ _ (toggleUserStatus_otps _ _) Hinv).
    + exact Hinv.
  - intros email user old -> Hfind Hold. simpl.
    destruct (generateOtp_store email false env s user Hfind)
      as (_ & Hotps & _).
    unfold otp_count. rewrite Hotps, filter_app, length_app.
    unfold kept_records. rewrite Hold. simpl.
    unfold by_userId at 2. simpl. rewrite String.eqb_refl. simpl. lia.
Qed.

(** ** Notifier failure during issuance *)

(** C4, as the code has it.  When the record of an issuance is stored and
    the mail send then fails, the record stays stored and nothing reaches
    the outbox; the issuance reports success if the send returned a
    failure value, and reports an error with the thrown message if the
    send rejected. *)
Theorem generateOtp_mail_failure
    (email : string) (resend : bool) (env : Env.t) (s : State)
    (user : User.t) :
  userRepository.findOne (by_email email) s = Some user ->
  Env.mail env <> MailDelivered ->
  In (issued_record user env s) (otps (snd (generateOtp email resend env s)))
  /\ outbox (snd (generateOtp email resend env s)) = outbox s
  /\ match Env.mail env with
     | MailRejects msg =>
         fst (generateOtp email resend env s)
         = failure (or_default msg "Failed to generate OTP")
     | _ =>
         fst (generateOtp email resend env s)
         = mkResponse success "OTP generated successfully"
             (DOtp (User.id user) (Env.now env + OTP_TTL_MS))
     end.
Proof.
  intros Hfind Hfail.
  destruct (generateOtp_store email resend env s user Hfind)
    as (_ & Hotps & _).
  split; [|split].
  - rewrite Hotps. apply in_or_app. right. left. reflexivity.
  - unfold generateOtp. rewrite Hfind.
    destruct (otpRepository.findOne (by_userId (User.id user)) s) as [old|];
      [destruct resend|];
      unfold otpRepository.save, mailerService.sendEmail;
      destruct (Env.mail env); try reflexivity; contradiction.
  - rewrite (generateOtp_response _ _ _ _ _ Hfind).
    destruct (Env.mail env); reflexivity.
Qed.

(** ** Reset tokens *)

Lemma token_differs_false (user : User.t) (token : string) :
  token_differs user token = false <->
  User.resetPasswordToken user = Some token.
Proof.
  unfold token_differs. destruct (User.resetPasswordToken user) as [stored|].
  - rewrite negb_false_iff, String.eqb_eq. split; congruence.
  - split; discriminate.
Qed.

(** The store after [generateResetToken] for an existing user: the user
    found under the email carries the token just signed, whatever the
    mail send did. *)
Lemma generateResetToken_stores_token (payload : Jwt.payload) (env : Env.t)
    (s : State) (user : User.t) :
  userRepository.findOne (by_email (Jwt.email payload)) s = Some user ->
  userRepository.findOne (by_email (Jwt.email payload))
    (snd (generateResetToken payload env s))
  = Some (User.with_resetPasswordToken
            (Some (jwt_signAsync payload JWT_SECRET JWT_EXPIRES_IN
                     (Env.now env)))
            user).
Proof.
  intros Hfind. unfold generateResetToken. rewrite Hfind.
  set (s1 := userRepository.update _ _ s).
  assert (H1 : userRepository.findOne (by_email (Jwt.email payload)) s1
               = Some (User.with_resetPasswordToken
                         (Some (jwt_signAsync payload JWT_SECRET
                                  JWT_EXPIRES_IN (Env.now env))) user)).
  { unfold s1. rewrite findOne_by_email_update by reflexivity.
    rewrite Hfind. simpl. rewrite String.eqb_refl. reflexivity. }
  unfold mailerService.sendEmail. destruct (Env.mail env); exact H1.
Qed.

(** [verifyResetToken] accepts a token only when it is the one stored for
    the user its payload names. *)
Lemma verifyResetToken_success_inv (token : string) (env : Env.t)
    (s : State) :
  result (fst (verifyResetToken token env s)) = success ->
  exists decoded user,
    jwt_verify token JWT_SECRET (Env.now env) = Jwt.Decoded (Some decoded)
    /\ userRepository.findOne (by_email (Jwt.email decoded)) s = Some user
    /\ User.resetPasswordToken user = Some token.
Proof.
  unfold verifyResetToken.
  destruct (jwt_verify _ _ _) as [[decoded|]|msg]; try (simpl; discriminate).
  destruct (userRepository.findOne _ s) as [user|] eqn:Hfind;
    [|simpl; discriminate].
  destruct (token_differs user token) eqn:Hdiff; [simpl; discriminate|].
  intros _. exists decoded, user. apply token_differs_false in Hdiff. auto.
Qed.

(** C3, as the code has it.  After two issuances for the same user, the
    user found under the email carries the second token.  A first token
    that is another string is then refused by [verifyResetToken]: with
    "Invalid token" and data [{valid: false}] when the signer still
    accepts it, and with some error in any case where the signer does not
    decode it to another email.  When the signer gave both issuances the
    same string, the first token is the stored one and verifies for as
    long as the signer accepts it.  In no state do two different tokens
    that decode to the same payload both verify. *)
Theorem second_issuance_revokes_first
    (payload : Jwt.payload) (env1 env2 env3 : Env.t) (s : State)
    (user : User.t) :
  userRepository.findOne (by_email (Jwt.email payload)) s = Some user ->
  let t1 := jwt_signAsync payload JWT_SECRET JWT_EXPIRES_IN (Env.now env1) in
  let t2 := jwt_signAsync payload JWT_SECRET JWT_EXPIRES_IN (Env.now env2) in
  let s1 := snd (generateResetToken payload env1 s) in
  let s2 := snd (generateResetToken payload env2 s1) in
  (exists user2,
      userRepository.findOne (by_email (Jwt.email payload)) s2 = Some user2
      /\ User.id user2 = User.id user
      /\ User.resetPasswordToken user2 = Some t2)
  /\ (jwt_verify t1 JWT_SECRET (Env.now env3) = Jwt.Decoded (Some payload) ->
      (t1 <> t2 ->
       verifyResetToken t1 env3 s2
       = (mkResponse error "Invalid token" (DValid false), s2))
      /\ (t1 = t2 ->
          verifyResetToken t1 env3 s2
          = (mkResponse success "Token verified successfully" (DValid true),
             s2)))
  /\ (t1 <> t2 ->
      (forall d, jwt_verify t1 JWT_SECRET (Env.now env3)
                 = Jwt.Decoded (Some d) ->
                 Jwt.email d = Jwt.email payload) ->
      result (fst (verifyResetToken t1 env3 s2)) = error)
  /\ (forall (st : State) (env : Env.t) (ta tb : string) (d : Jwt.payload),
        jwt_verify ta JWT_SECRET (Env.now env) = Jwt.Decoded (Some d) ->
        jwt_verify tb JWT_SECRET (Env.now env) = Jwt.Decoded (Some d) ->
        result (fst (verifyResetToken ta env st)) = success ->
        result (fst (verifyResetToken tb env st)) = success ->
        ta = tb).
Proof.
  intros Hfind t1 t2 s1 s2.
  pose proof (generateResetToken_stores_token payload env1 s user Hfind)
    as Hfind1.
  fold s1 t1 in Hfind1.
  pose proof (generateResetToken_stores_token payload env2 s1 _ Hfind1)
    as Hfind2.
  fold s2 t2 in Hfind2.
  set (user2 := User.with_resetPasswordToken (Some t2)
                  (User.with_resetPasswordToken (Some t1) user)) in *.
  assert (Hdiff : t1 <> t2 -> token_differs user2 t1 = true).
  { intros Hneq. unfold token_differs. simpl. apply negb_true_iff.
    apply String.eqb_neq. congruence. }
  assert (Hsame : t1 = t2 -> token_differs user2 t1 = false).
  { intros Heq. apply token_differs_false. simpl. congruence. }
  split; [|split; [|split]].
  - exists user2. split; [exact Hfind2|]. split; reflexivity.
  - intros Hvalid. split; intros Hcase; unfold verifyResetToken;
      rewrite Hvalid, Hfind2.
    + rewrite (Hdiff Hcase). reflexivity.
    + rewrite (Hsame Hcase). reflexivity.
  - intros Hneq Hemail. unfold verifyResetToken.
    destruct (jwt_verify t1 JWT_SECRET (Env.now env3))
      as [[d|]|msg] eqn:Hv; try reflexivity.
    rewrite (Hemail d eq_refl), Hfind2, (Hdiff Hneq). reflexivity.
  - intros st env ta tb d Hva Hvb Hoka Hokb.
    destruct (verifyResetToken_success_inv _ _ _ Hoka)
      as (da & ua & Hda & Hua & Hta).
    destruct (verifyResetToken_success_inv _ _ _ Hokb)
      as (db & ub & Hdb & Hub & Htb).
    rewrite Hva in Hda. rewrite Hvb in Hdb.
    inversion Hda; inversion Hdb; subst da db.
    rewrite Hua in Hub. inversion Hub; subst ub. congruence.
Qed.

Lemma updatePassword_success_inv (token password : string) (env : Env.t)
    (s : State) :
  result (fst (updatePassword token password env s)) = success ->
  exists decoded user,
    jwt_verify token JWT_SECRET (Env.now env) = Jwt.Decoded (Some decoded)
    /\ userRepository.findOne (by_email (Jwt.email decoded)) s = Some user
    /\ User.resetPasswordToken user = Some token
    /\ (forall msg, Env.mail env <> MailRejects msg)
    /\ users (snd (updatePassword token password env s))
       = users (userRepository.update (User.id user)
                 (User.with_password
                    (bcrypt_hash password BCRYPT_ROUNDS (Env.salt env))) s).
Proof.
  unfold updatePassword.
  destruct (jwt_verify _ _ _) as [[decoded|]|msg]; try (simpl; discriminate).
  destruct (userRepository.findOne _ s) as [user|] eqn:Hfind;
    [|simpl; discriminate].
  destruct (token_differs user token) eqn:Hdiff; [simpl; discriminate|].
  apply token_differs_false in Hdiff.
  unfold mailerService.sendEmail.
  destruct (Env.mail env) eqn:Hmail; simpl; try discriminate;
    intros _; exists decoded, user; repeat split; auto; discriminate.
Qed.

(** C1, as the code has it.  A successful [updatePassword] stores the
    hash of the new password for the user the token names and leaves that
    user's [resetPasswordToken] as it was, equal to the token; a further
    [updatePassword] with the same token succeeds again whenever the
    signer still decodes it and the mail send does not reject. *)
Theorem updatePassword_keeps_token
    (token password : string) (env : Env.t) (s : State) :
  result (fst (updatePassword token password env s)) = success ->
  let s' := snd (updatePassword token password env s) in
  exists decoded user',
    jwt_verify token JWT_SECRET (Env.now env) = Jwt.Decoded (Some decoded)
    /\ userRepository.findOne (by_email (Jwt.email decoded)) s' = Some user'
    /\ User.password user'
       = bcrypt_hash password BCRYPT_ROUNDS (Env.salt env)
    /\ User.resetPasswordToken user' = Some token
    /\ (forall password2 env2,
          jwt_verify token JWT_SECRET (Env.now env2)
          = Jwt.Decoded (Some decoded) ->
          (forall msg, Env.mail env2 <> MailRejects msg) ->
          result (fst (updatePassword token password2 env2 s')) = success).
Proof.
  intros Hok s'.
  destruct (updatePassword_success_inv _ _ _ _ Hok)
    as (decoded & user & Hv & Hfind & Htok & _ & Husers).
  fold s' in Husers.
  set (h := bcrypt_hash password BCRYPT_ROUNDS (Env.salt env)) in *.
  assert (Hfind' : userRepository.findOne (by_email (Jwt.email decoded)) s'
                   = Some (User.with_password h user)).
  { unfold userRepository.findOne. rewrite Husers.
    change (userRepository.findOne (by_email (Jwt.email decoded))
              (userRepository.update (User.id user) (User.with_password h) s)
            = Some (User.with_password h user)).
    rewrite findOne_by_email_update by reflexivity.
    rewrite Hfind. simpl. rewrite String.eqb_refl. reflexivity. }
  exists decoded, (User.with_password h user).
  repeat split; auto.
  intros password2 env2 Hv2 Hmail2. unfold updatePassword.
  rewrite Hv2, Hfind'.
  assert (Hsame : token_differs (User.with_password h user) token = false).
  { apply token_differs_false. exact Htok. }
  rewrite Hsame. unfold mailerService.sendEmail.
  destruct (Env.mail env2) as [| |msg] eqn:Hm; try reflexivity.
  exfalso. exact (Hmail2 msg eq_refl).
Qed.

(** ** Presence *)

Lemma findOne_by_id_save (userId : string) (s : State) (user user' : User.t) :
  userRepository.findOne (by_id userId) s = Some user ->
  User.id user' = User.id user ->
  userRepository.findOne (by_id userId) (userRepository.save user' s)
  = Some user'.
Proof.
  intros Hfind Hid. unfold userRepository.findOne, userRepository.save. simpl.
  rewrite find_map_stable.
  - unfold userRepository.findOne in Hfind. rewrite Hfind. simpl.
    rewrite Hid, String.eqb_refl. reflexivity.
  - intros u. unfold by_id.
    destruct (String.eqb (User.id u) (User.id user')) eqn:Hu; [|reflexivity].
    apply String.eqb_eq in Hu. rewrite Hu. reflexivity.
Qed.

(** The one condition of the list, spelled out. *)
Lemma checkOnlineConditions_cases (user : User.t) :
  checkOnlineConditions user
  = match User.settings user with
    | Some st =>
        if Settings.verified st then Returned tt
        else HttpException BAD_REQUEST "Email must be verified to come online."
    | None => TypeError "Cannot read properties of null (reading 'verified')"
    end.
Proof.
  unfold checkOnlineConditions, conditions, settings_verified. simpl.
  destruct (User.settings user) as [st|]; [|reflexivity].
  destruct (Settings.verified st); reflexivity.
Qed.

(** Offline and verified: the toggle succeeds and stores [online]. *)
Lemma toggleUserStatus_goes_online (userId : string) (s : State)
    (user : User.t) (st : Settings.t) :
  userRepository.findOne (by_id userId) s = Some user ->
  User.status user = "offline" ->
  User.settings user = Some st ->
  Settings.verified st = true ->
  fst (toggleUserStatus userId s)
  = Returned (mkResponse success "User status updated to online."
                (DUser (User.with_status "online" user)))
  /\ userRepository.findOne (by_id userId) (snd (toggleUserStatus userId s))
     = Some (User.with_status "online" user).
Proof.
  intros Hfind Hoff Hst Hv. unfold toggleUserStatus.
  rewrite Hfind, Hoff, checkOnlineConditions_cases, Hst, Hv.
  split; [reflexivity|].
  apply (findOne_by_id_save userId s user); [exact Hfind | reflexivity].
Qed.

(** Offline with the flag false: the precondition error, and no write. *)
Lemma toggleUserStatus_refused (userId : string) (s : State)
    (user : User.t) (st : Settings.t) :
  userRepository.findOne (by_id userId) s = Some user ->
  User.status user = "offline" ->
  User.settings user = Some st ->
  Settings.verified st = false ->
  toggleUserStatus userId s
  = (HttpException BAD_REQUEST "Email must be verified to come online.", s).
Proof.
  intros Hfind Hoff Hst Hv. unfold toggleUserStatus.
  rewrite Hfind, Hoff, checkOnlineConditions_cases, Hst, Hv. reflexivity.
Qed.

(** Any status but [offline]: the toggle succeeds and stores [offline],
    with no precondition consulted. *)
Lemma toggleUserStatus_goes_offline (userId : string) (s : State)
    (user : User.t) :
  userRepository.findOne (by_id userId) s = Some user ->
  User.status user <> "offline" ->
  fst (toggleUserStatus userId s)
  = Returned (mkResponse success "User status updated to offline."
                (DUser (User.with_status "offline" user)))
  /\ userRepository.findOne (by_id userId) (snd (toggleUserStatus userId s))
     = Some (User.with_status "offline" user).
Proof.
  intros Hfind Hon. unfold toggleUserStatus. rewrite Hfind.
  apply String.eqb_neq in Hon. rewrite Hon. split; [reflexivity|].
  apply (findOne_by_id_save userId s user); [exact Hfind | reflexivity].
Qed.

(** A toggle that returns from [offline] was made by a verified user. *)
Lemma toggleUserStatus_online_only_if_verified (userId : string) (s : State)
    (user : User.t) (r : RequestResponse) :
  userRepository.findOne (by_id userId) s = Some user ->
  User.status user = "offline" ->
  fst (toggleUserStatus userId s) = Returned r ->
  User.settings_and_verified user = true.
Proof.
  intros Hfind Hoff. unfold toggleUserStatus.
  rewrite Hfind, Hoff, checkOnlineConditions_cases.
  unfold User.settings_and_verified.
  destruct (User.settings user) as [st|]; [|simpl; discriminate].
  destruct (Settings.verified st); [reflexivity | simpl; discriminate].
Qed.

(** C8, where the code departs from it.  For a stored user that is offline
    and has no settings object, [toggleUserStatus] neither goes online nor
    raises the precondition error: reading [user.settings.verified]
    throws a [TypeError], which nothing catches.  The store is unchanged. *)
Theorem toggleUserStatus_without_settings
    (userId : string) (s : State) (user : User.t) :
  userRepository.findOne (by_id userId) s = Some user ->
  User.status user = "offline" ->
  User.settings user = None ->
  exists msg, toggleUserStatus userId s = (TypeError msg, s).
Proof.
  intros Hfind Hoff Hnone. unfold toggleUserStatus.
  rewrite Hfind, Hoff, checkOnlineConditions_cases, Hnone.
  eexists. reflexivity.
Qed.

(** ** Beyond the claims: reset requests *)

(** X1.  [resetPassword] adds nothing to [generateResetToken]: for every input
    the two give the same response and leave the same store. *)
Theorem resetPassword_is_generateResetToken
    (payload : Jwt.payload) (env : Env.t) (s : State) :
  resetPassword payload env s = generateResetToken payload env s.
Proof.
  unfold resetPassword, generateResetToken.
  destruct (userRepository.findOne _ s) as [user|]; [|reflexivity].
  unfold mailerService.sendEmail. destruct (Env.mail env); reflexivity.
Qed.

(** X2.  The token a reset request stores is accepted while the signer decodes
    it: [verifyResetToken] answers valid, and [updatePassword] stores the
    hash of the new password for the same user. *)
Theorem issued_token_is_usable
    (payload : Jwt.payload) (env1 env2 env3 : Env.t) (s : State)
    (user : User.t) (password : string) :
  userRepository.findOne (by_email (Jwt.email payload)) s = Some user ->
  let token := jwt_signAsync payload JWT_SECRET JWT_EXPIRES_IN (Env.now env1) in
  let s1 := snd (generateResetToken payload env1 s) in
  jwt_verify token JWT_SECRET (Env.now env2) = Jwt.Decoded (Some payload) ->
  jwt_verify token JWT_SECRET (Env.now env3) = Jwt.Decoded (Some payload) ->
  (forall msg, Env.mail env3 <> MailRejects msg) ->
  verifyResetToken token env2 s1
  = (mkResponse success "Token verified successfully" (DValid true), s1)
  /\ fst (updatePassword token password env3 s1)
     = mkResponse success "Password updated successfully" DNull
  /\ exists user',
       userRepository.findOne (by_email (Jwt.email payload))
         (snd (updatePassword token password env3 s1)) = Some user'
       /\ User.id user' = User.id user
       /\ User.password user'
          = bcrypt_hash password BCRYPT_ROUNDS (Env.salt env3).
Proof.
  intros Hfind token s1 Hv2 Hv3 Hmail.
  pose proof (generateResetToken_stores_token payload env1 s user Hfind)
    as Hfind1.
  fold s1 token in Hfind1.
  set (user1 := User.with_resetPasswordToken (Some token) user) in *.
  assert (Hsame : token_differs user1 token = false).
  { apply token_differs_false. reflexivity. }
  split; [|split].
  - unfold verifyResetToken. rewrite Hv2, Hfind1, Hsame. reflexivity.
  - unfold updatePassword. rewrite Hv3, Hfind1, Hsame.
    unfold mailerService.sendEmail.
    destruct (Env.mail env3) as [| |msg] eqn:Hm; try reflexivity.
    exfalso. exact (Hmail msg eq_refl).
  - exists (User.with_password
              (bcrypt_hash password BCRYPT_ROUNDS (Env.salt env3)) user1).
    split; [|split; reflexivity].
    assert (Hupd : userRepository.findOne (by_email (Jwt.email payload))
                     (userRepository.update (User.id user1)
                        (User.with_password
                           (bcrypt_hash password BCRYPT_ROUNDS
                              (Env.salt env3))) s1)
                   = Some (User.with_password
                             (bcrypt_hash password BCRYPT_ROUNDS
                                (Env.salt env3)) user1)).
    { rewrite findOne_by_email_update by reflexivity.
      rewrite Hfind1. simpl. rewrite String.eqb_refl. reflexivity. }
    unfold updatePassword. rewrite Hv3, Hfind1, Hsame.
    unfold mailerService.sendEmail.
    destruct (Env.mail env3); exact Hupd.
Qed.

(** X3.  [updatePassword] changes a stored user only for a token that the
    signer decodes and that is the one stored for the user it names; and
    whatever it does, every row keeps all its fields but the password and
    the records are untouched. *)
Theorem updatePassword_writes_only_for_stored_token
    (token password : string) (env : Env.t) (s : State) :
  let s' := snd (updatePassword token password env s) in
  (users s' <> users s ->
   exists decoded user,
     jwt_verify token JWT_SECRET (Env.now env) = Jwt.Decoded (Some decoded)
     /\ userRepository.findOne (by_email (Jwt.email decoded)) s = Some user
     /\ User.resetPasswordToken user = Some token)
  /\ Forall2 (fun u u' => User.with_password (User.password u) u' = u)
       (users s) (users s')
  /\ otps s' = otps s.
Proof.
  assert (Hrefl : forall l : list User.t,
             Forall2 (fun u u' => User.with_password (User.password u) u' = u)
               l l).
  { induction l as [|[] l IH]; constructor; [reflexivity | exact IH]. }
  unfold updatePassword.
  destruct (jwt_verify _ _ _) as [[decoded|]|msg] eqn:Hv;
    try (simpl; split; [intros H; contradiction H; reflexivity|];
         split; [apply Hrefl | reflexivity]).
  destruct (userRepository.findOne _ s) as [user|] eqn:Hfind;
    [|simpl; split; [intros H; contradiction H; reflexivity|];
      split; [apply Hrefl | reflexivity]].
  destruct (token_differs user token) eqn:Hdiff;
    [simpl; split; [intros H; contradiction H; reflexivity|];
      split; [apply Hrefl | reflexivity]|].
  apply token_differs_false in Hdiff.
  assert (Hrows : forall h,
             Forall2 (fun u u' => User.with_password (User.password u) u' = u)
               (users s)
               (users (userRepository.update (User.id user)
                         (User.with_password h) s))).
  { intros h. simpl. induction (users s) as [|u l IH]; simpl; constructor;
      [|exact IH].
    destruct (String.eqb (User.id u) (User.id user)); destruct u; reflexivity. }
  unfold mailerService.sendEmail.
  destruct (Env.mail env); simpl;
    (split; [intros _; exists decoded, user; auto|];
     split; [apply Hrows | reflexivity]).
Qed.

(** ** Beyond the claims: one-time passcodes *)

Lemma find_filter_miss {A : Type} (p q : A -> bool) (l : list A) :
  find p l = None -> find p (filter q l) = None.
Proof.
  induction l as [|a l IH]; simpl; [reflexivity|].
  destruct (p a) eqn:Hp; [discriminate|]. intros Hmiss.
  destruct (q a); simpl; [rewrite Hp|]; auto.
Qed.

(** The store after a first issuance for a user that had no record. *)
Lemma first_issuance_store (email : string) (resend : bool) (env : Env.t)
    (s : State) (user : User.t) :
  userRepository.findOne (by_email email) s = Some user ->
  otpRepository.findOne (by_userId (User.id user)) s = None ->
  let s1 := snd (generateOtp email resend env s) in
  userRepository.findOne (by_email email) s1 = Some user
  /\ otps s1 = (otps s ++ [issued_record user env s])%list
  /\ next_otp_id s1 = S (next_otp_id s)
  /\ otpRepository.findOne (by_userId (User.id user)) s1
     = Some (issued_record user env s).
Proof.
  intros Hfind Hnone s1.
  destruct (generateOtp_store email resend env s user Hfind)
    as (Husers & Hotps & Hnext).
  fold s1 in Husers, Hotps, Hnext.
  unfold kept_records in Hotps. rewrite Hnone in Hotps.
  assert (Hrow : (if resend then otps s else otps s) = otps s)
    by (destruct resend; reflexivity).
  split; [|split; [|split]].
  - unfold userRepository.findOne. rewrite Husers. exact Hfind.
  - exact Hotps.
  - exact Hnext.
  - unfold otpRepository.findOne. rewrite Hotps.
    rewrite find_app_miss by exact Hnone.
    simpl. unfold by_userId. simpl. rewrite String.eqb_refl. reflexivity.
Qed.

(** X5.  A resend revokes the code issued before it: for a user that had no
    record, after an issuance and a resend that drew another code, the
    first code is answered with "Invalid OTP" while the second one, up to
    its expiry, is accepted. *)
Theorem resend_revokes_first_code
    (email : string) (resend1 : bool) (env1 env2 env3 : Env.t) (s : State)
    (user : User.t) :
  userRepository.findOne (by_email email) s = Some user ->
  User.settings_and_verified user = false ->
  otpRepository.findOne (by_userId (User.id user)) s = None ->
  drawn_otp env1 <> drawn_otp env2 ->
  let s1 := snd (generateOtp email resend1 env1 s) in
  let s2 := snd (generateOtp email true env2 s1) in
  verifyOtp email (drawn_otp env1) env3 s2 = (failure "Invalid OTP", s2)
  /\ ((Env.now env3 <= Env.now env2 + OTP_TTL_MS)%Z ->
      fst (verifyOtp email (drawn_otp env2) env3 s2)
      = mkResponse success "OTP verified successfully" DNull).
Proof.
  intros Hfind Hflag Hnone Hcodes s1 s2.
  destruct (first_issuance_store email resend1 env1 s user Hfind Hnone)
    as (Hfind1 & Hotps1 & Hnext1 & Hold1).
  fold s1 in Hfind1, Hotps1, Hnext1, Hold1.
  destruct (generateOtp_store email true env2 s1 user Hfind1)
    as (Husers2 & Hotps2 & _).
  fold s2 in Husers2, Hotps2.
  assert (Hfind2 : userRepository.findOne (by_email email) s2 = Some user).
  { unfold userRepository.findOne. rewrite Husers2. exact Hfind1. }
  assert (Hkept : forall otp,
             find (by_userId_otp (User.id user) otp)
               (kept_records user true s1) = None).
  { intros otp. unfold kept_records. rewrite Hold1, Hotps1.
    rewrite filter_app. rewrite find_app_miss.
    - simpl. rewrite Nat.eqb_refl. reflexivity.
    - apply find_filter_miss.
      eapply find_none_weaken; [|exact Hnone].
      intros r. apply by_userId_otp_implies. }
  split.
  - rewrite (verifyOtp_unverified _ _ _ _ _ Hfind2 Hflag).
    unfold otp_lookup_outcome, otpRepository.findOne.
    rewrite Hotps2, (find_app_miss _ _ _ (Hkept _)).
    simpl. unfold by_userId_otp. simpl.
    apply String.eqb_neq in Hcodes. rewrite String.eqb_sym in Hcodes.
    rewrite Hcodes, andb_false_r. reflexivity.
  - intros Hnow.
    rewrite (verifyOtp_unverified _ _ _ _ _ Hfind2 Hflag).
    unfold otp_lookup_outcome, otpRepository.findOne.
    rewrite Hotps2, (find_app_miss _ _ _ (Hkept _)).
    simpl. unfold by_userId_otp. simpl. rewrite !String.eqb_refl. simpl.
    apply Z.ltb_ge in Hnow. rewrite Hnow. reflexivity.
Qed.


(** ** Beyond the claims: presence *)

Lemma unique_ids_same_row (s : State) (u v : User.t) :
  unique_ids s -> In u (users s) -> In v (users s) ->
  User.id u = User.id v -> u = v.
Proof.
  unfold unique_ids. induction (users s) as [|a l IH]; simpl; [contradiction|].
  intros Hnd Hu Hv Hid. inversion Hnd as [|x xs Hnotin Hnd']; subst.
  destruct Hu as [<-|Hu], Hv as [<-|Hv].
  - reflexivity.
  - exfalso. apply Hnotin. rewrite Hid. apply in_map. exact Hv.
  - exfalso. apply Hnotin. rewrite <- Hid. apply in_map. exact Hu.
  - auto.
Qed.

Lemma findOne_In (p : User.t -> bool) (s : State) (u : User.t) :
  userRepository.findOne p s = Some u -> In u (users s) /\ p u = true.
Proof. apply find_some. Qed.

(** Under unique ids, [save] of a row found in the store touches that row
    alone. *)
Lemma save_rows (s : State) (user user' : User.t) :
  unique_ids s -> In user (users s) -> User.id user' = User.id user ->
  forall (R : User.t -> User.t -> Prop),
    (forall u, R u u) -> R user user' ->
    Forall2 R (users s) (users (userRepository.save user' s)).
Proof.
  intros Hnd Hin Hid R Hrefl Hrow. simpl.
  assert (Hall : forall u, In u (users s) ->
                   R u (if String.eqb (User.id u) (User.id user')
                        then user' else u)).
  { intros u Hu. destruct (String.eqb (User.id u) (User.id user')) eqn:He.
    - apply String.eqb_eq in He. rewrite Hid in He.
      rewrite (unique_ids_same_row s u user Hnd Hu Hin He). exact Hrow.
    - apply Hrefl. }
  clear Hnd Hin. revert Hall. generalize (users s) as l.
  induction l as [|a l IH]; intros Hall; simpl; constructor.
  - apply Hall. left. reflexivity.
  - apply IH. intros u Hu. apply Hall. right. exact Hu.
Qed.

(** X7.  What a toggle does to the store: nothing when it throws; when it
    returns, the records, the id counter and the outbox are as before,
    and under unique ids every row keeps all its fields but the status,
    rows of other ids being untouched. *)
Theorem toggleUserStatus_frame (userId : string) (s : State) :
  let s' := snd (toggleUserStatus userId s) in
  ((forall r, fst (toggleUserStatus userId s) <> Returned r) -> s' = s)
  /\ otps s' = otps s
  /\ next_otp_id s' = next_otp_id s
  /\ outbox s' = outbox s
  /\ (unique_ids s ->
      Forall2
        (fun u u' =>
           User.with_status (User.status u) u' = u
           /\ (User.id u <> userId -> u' = u))
        (users s) (users s')).
Proof.
  assert (Hrefl : forall l : list User.t,
             Forall2
               (fun u u' =>
                  User.with_status (User.status u) u' = u
                  /\ (User.id u <> userId -> u' = u)) l l).
  { induction l as [|[] l IH]; constructor; [split; reflexivity | exact IH]. }
  unfold toggleUserStatus.
  destruct (userRepository.findOne (by_id userId) s) as [user|] eqn:Hfind;
    [|simpl; repeat split; auto].
  destruct (findOne_In _ _ _ Hfind) as [Hin Hid].
  apply String.eqb_eq in Hid.
  assert (Hsave : forall x,
             unique_ids s ->
             Forall2
               (fun u u' =>
                  User.with_status (User.status u) u' = u
                  /\ (User.id u <> userId -> u' = u))
               (users s)
               (users (userRepository.save (User.with_status x user) s))).
  { intros x Hnd. apply (save_rows s user); auto.
    - intros []. split; reflexivity.
    - split; [destruct user; reflexivity | congruence]. }
  assert (Hreturned : forall x (r : RequestResponse),
             let s1 := userRepository.save (User.with_status x user) s in
             ((forall r', @Returned RequestResponse r <> Returned r')
              -> s1 = s)
             /\ otps s1 = otps s
             /\ next_otp_id s1 = next_otp_id s
             /\ outbox s1 = outbox s
             /\ (unique_ids s ->
                 Forall2
                   (fun u u' =>
                      User.with_status (User.status u) u' = u
                      /\ (User.id u <> userId -> u' = u))
                   (users s) (users s1))).
  { intros x r s1. split.
    - intros Hthrows. exfalso. exact (Hthrows r eq_refl).
    - repeat split; try reflexivity. apply Hsave. }
  destruct (String.eqb (User.status user) "offline").
  - destruct (checkOnlineConditions user); simpl.
    + apply Hreturned.
    + repeat split; auto.
    + repeat split; auto.
  - apply Hreturned.
Qed.

(** X8.  Two toggles in a row bring a verified user back: the row found under
    the id is the original one, and under unique ids so is the whole
    user table. *)
Theorem toggleUserStatus_twice
    (userId : string) (s : State) (user : User.t) (st : Settings.t) :
  userRepository.findOne (by_id userId) s = Some user ->
  User.settings user = Some st ->
  Settings.verified st = true ->
  User.status user = "offline" \/ User.status user = "online" ->
  let s2 := snd (toggleUserStatus userId (snd (toggleUserStatus userId s))) in
  userRepository.findOne (by_id userId) s2 = Some user
  /\ (unique_ids s -> users s2 = users s).
Proof.
  intros Hfind Hst Hv Hstatus s2.
  set (other := if String.eqb (User.status user) "offline"
                then "online" else "offline").
  set (user1 := User.with_status other user).
  assert (Hstep1 : snd (toggleUserStatus userId s)
                   = userRepository.save user1 s).
  { unfold toggleUserStatus, user1, other.
    rewrite Hfind, checkOnlineConditions_cases, Hst, Hv.
    destruct (String.eqb (User.status user) "offline"); reflexivity. }
  assert (Hfind1 : userRepository.findOne (by_id userId)
                     (userRepository.save user1 s) = Some user1).
  { apply (findOne_by_id_save userId s user); [exact Hfind | reflexivity]. }
  assert (Hback : User.with_status
                    (if String.eqb other "offline" then "online" else "offline")
                    user1 = user).
  { unfold user1, other.
    destruct Hstatus as [Hs|Hs]; rewrite Hs; simpl;
      destruct user; simpl in *; subst; reflexivity. }
  assert (Hstep2 : s2 = userRepository.save user (userRepository.save user1 s)).
  { unfold s2. rewrite Hstep1. unfold toggleUserStatus.
    rewrite Hfind1, checkOnlineConditions_cases.
    change (User.settings user1) with (User.settings user).
    change (User.status user1) with other.
    rewrite Hst, Hv, <- Hback at 1.
    destruct (String.eqb other "offline"); reflexivity. }
  split.
  - rewrite Hstep2.
    apply (findOne_by_id_save userId _ user1); [exact Hfind1 | reflexivity].
  - intros Hnd. rewrite Hstep2. simpl. rewrite map_map.
    destruct (findOne_In _ _ _ Hfind) as [Hin _].
    rewrite <- (map_id (users s)) at 2. apply map_ext_in.
    intros u Hu. change (User.id user1) with (User.id user).
    destruct (String.eqb (User.id u) (User.id user)) eqn:He.
    + rewrite String.eqb_refl. apply String.eqb_eq in He.
      symmetry. exact (unique_ids_same_row s u user Hnd Hu Hin He).
    + rewrite He. reflexivity.
Qed.

(** X9.  [getUserStatus] after a toggle that returned reports the status the
    toggle answered with, which is "online" or "offline". *)
Theorem getUserStatus_after_toggle
    (userId : string) (s : State) (r : RequestResponse) :
  fst (toggleUserStatus userId s) = Returned r ->
  exists user',
    data r = DUser user'
    /\ message r = "User status updated to " ++ User.status user' ++ "."
    /\ (User.status user' = "online" \/ User.status user' = "offline")
    /\ getUserStatus userId (snd (toggleUserStatus userId s))
       = Returned (mkResponse success "User status fetched successfully."
                     (DStatus (User.status user'))).
Proof.
  unfold toggleUserStatus.
  destruct (userRepository.findOne (by_id userId) s) as [user|] eqn:Hfind;
    [|simpl; discriminate].
  assert (Hget : forall x,
             getUserStatus userId
               (userRepository.save (User.with_status x user) s)
             = Returned (mkResponse success "User status fetched successfully."
                           (DStatus x))).
  { intros x. unfold getUserStatus.
    rewrite (findOne_by_id_save userId s user (User.with_status x user) Hfind
               eq_refl).
    reflexivity. }
  destruct (String.eqb (User.status user) "offline").
  - destruct (checkOnlineConditions user); simpl; try discriminate.
    intros Hr. inversion Hr; subst. exists (User.with_status "online" user).
    repeat split; auto.
  - simpl. intros Hr. inversion Hr; subst.
    exists (User.with_status "offline" user). repeat split; auto.
Qed.

(** ** Beyond the claims: what requests leave alone *)

Lemma Forall2_map_in {A : Type} (R : A -> A -> Prop) (g : A -> A)
    (l : list A) :
  (forall a, In a l -> R a (g a)) -> Forall2 R l (map g l).
Proof.
  induction l as [|a l IH]; intros Hall; simpl; constructor.
  - apply Hall. left. reflexivity.
  - apply IH. intros b Hb. apply Hall. right. exact Hb.
Qed.

Lemma Forall2_same {A : Type} (R : A -> A -> Prop) (l : list A) :
  (forall a, R a a) -> Forall2 R l l.
Proof.
  intros Hrefl. induction l; constructor; auto.
Qed.

(** [update] with a partial that respects a reflexive row relation
    relates the old rows to the new ones. *)
Lemma update_rows (R : User.t -> User.t -> Prop) (id : string)
    (f : User.t -> User.t) (s : State) :
  (forall u, R u u) -> (forall u, R u (f u)) ->
  Forall2 R (users s) (users (userRepository.update id f s)).
Proof.
  intros Hrefl Hf. simpl. apply Forall2_map_in. intros u _.
  destruct (String.eqb (User.id u) id); auto.
Qed.

Lemma credential_frame_refl (u : User.t) : credential_frame u u.
Proof. unfold credential_frame. auto. Qed.

Lemma sendEmail_same_users (from to subject body : string) (env : Env.t)
    (s s' : State) :
  mailerService.sendEmail from to subject body env s = inr s' ->
  users s' = users s.
Proof.
  unfold mailerService.sendEmail.
  destruct (Env.mail env); intros H; inversion H; reflexivity.
Qed.

Lemma credential_rows (req : Request) (env : Env.t) (s : State) :
  unique_ids s ->
  Forall2 credential_frame (users s) (users (handle req env s)).
Proof.
  intros Hnd.
  pose proof (Forall2_same credential_frame (users s) credential_frame_refl)
    as Hsame.
  assert (Htoken : forall payload,
             Forall2 credential_frame (users s)
               (users (snd (generateResetToken payload env s)))).
  { intros payload. unfold generateResetToken.
    destruct (userRepository.findOne _ s) as [user|]; [|exact Hsame].
    unfold mailerService.sendEmail.
    destruct (Env.mail env); simpl;
      apply (update_rows credential_frame); auto using credential_frame_refl;
      intros u; unfold credential_frame; auto. }
  destruct req; simpl.
  - destruct (userRepository.findOne (by_email email) s) as [user|] eqn:Hfind.
    + destruct (generateOtp_store email resend env s user Hfind) as (-> & _).
      exact Hsame.
    + unfold generateOtp. rewrite Hfind. exact Hsame.
  - unfold verifyOtp, otp_lookup_outcome.
    destruct (userRepository.findOne _ s) as [user|]; [|exact Hsame].
    destruct (User.settings_and_verified user); [exact Hsame|].
    destruct (otpRepository.findOne _ s) as [r|]; [|exact Hsame].
    destruct (_ <? _)%Z; [exact Hsame|]. simpl.
    apply (update_rows credential_frame); auto using credential_frame_refl.
    intros u. unfold credential_frame. repeat split; try reflexivity.
    intros _. apply set_verified_flag.
  - unfold resetPassword.
    destruct (userRepository.findOne _ s) as [user|]; [|exact Hsame].
    specialize (Htoken payload).
    destruct (generateResetToken payload env s) as [r s1].
    destruct (result r); exact Htoken.
  - apply Htoken.
  - rewrite verifyResetToken_state. exact Hsame.
  - unfold updatePassword.
    destruct (jwt_verify _ _ _) as [[decoded|]|msg]; try exact Hsame.
    destruct (userRepository.findOne _ s) as [user|]; [|exact Hsame].
    destruct (token_differs user token); [exact Hsame|].
    unfold mailerService.sendEmail.
    destruct (Env.mail env); simpl;
      apply (update_rows credential_frame); auto using credential_frame_refl;
      intros u; unfold credential_frame; auto.
  - unfold toggleUserStatus.
    destruct (userRepository.findOne _ s) as [user|] eqn:Hfind;
      [|exact Hsame].
    destruct (findOne_In _ _ _ Hfind) as [Hin _].
    assert (Hsave : forall x,
               Forall2 credential_frame (users s)
                 (users (userRepository.save (User.with_status x user) s))).
    { intros x. apply (save_rows s user); auto using credential_frame_refl.
      unfold credential_frame. auto. }
    destruct (String.eqb (User.status user) "offline"); [|apply Hsave].
    destruct (checkOnlineConditions user);
      [apply Hsave | exact Hsame | exact Hsame].
  - exact Hsame.
Qed.

(** ** Beyond the claims: account settings *)

Lemma unique_emails_same_row (s : State) (u v : User.t) :
  unique_emails s -> In u (users s) -> In v (users s) ->
  User.email u = User.email v -> u = v.
Proof.
  unfold unique_emails.
  induction (users s) as [|a l IH]; simpl; [contradiction|].
  intros Hnd Hu Hv He. inversion Hnd as [|x xs Hnotin Hnd']; subst.
  destruct Hu as [<-|Hu], Hv as [<-|Hv].
  - reflexivity.
  - exfalso. apply Hnotin. rewrite He. apply in_map. exact Hv.
  - exfalso. apply Hnotin. rewrite <- He. apply in_map. exact Hu.
  - auto.
Qed.

Lemma find_all_false {A : Type} (p : A -> bool) (l : list A) :
  (forall a, In a l -> p a = false) -> find p l = None.
Proof.
  induction l as [|a l IH]; simpl; intros Hall; [reflexivity|].
  rewrite (Hall a) by (left; reflexivity).
  apply IH. intros b Hb. apply Hall. right. exact Hb.
Qed.

(** A lookup over updated rows finds the image of [a] when [a] is stored,
    its image satisfies the condition, and every image that satisfies it
    is the image of [a]. *)
Lemma find_map_only {A : Type} (p : A -> bool) (g : A -> A) (l : list A)
    (a : A) :
  In a l -> p (g a) = true ->
  (forall b, In b l -> p (g b) = true -> g b = g a) ->
  find p (map g l) = Some (g a).
Proof.
  induction l as [|b l IH]; simpl; intros Hin Hp Honly; [contradiction|].
  destruct (p (g b)) eqn:Hb.
  - rewrite (Honly b (or_introl eq_refl) Hb). reflexivity.
  - apply IH; auto. destruct Hin as [->|Hin]; [congruence | exact Hin].
Qed.

(** The email update both [changeEmail] operations perform, for a stored
    user and a new address that nobody holds. *)
Lemma email_update (s : State) (user : User.t) (newEmail : string) :
  unique_ids s ->
  In user (users s) ->
  User.email user <> newEmail ->
  userRepository.findOne (by_email newEmail) s = None ->
  let s' := userRepository.update (User.id user) (User.with_email newEmail) s in
  userRepository.findOne (by_email newEmail) s'
  = Some (User.with_email newEmail user)
  /\ (unique_emails s ->
      userRepository.findOne (by_email (User.email user)) s' = None
      /\ unique_emails s').
Proof.
  intros Hids Hin Hneq Hfree s'.
  set (g := fun u => if String.eqb (User.id u) (User.id user)
                     then User.with_email newEmail u else u).
  assert (Hnone : forall u, In u (users s) -> User.email u <> newEmail).
  { intros u Hu He.
    pose proof (find_none _ _ Hfree u Hu) as Hp. unfold by_email in Hp.
    apply String.eqb_neq in Hp. contradiction. }
  assert (Hg_user : g user = User.with_email newEmail user).
  { unfold g. rewrite String.eqb_refl. reflexivity. }
  assert (Hg_cases : forall u, In u (users s) ->
                       (u = user /\ g u = User.with_email newEmail user)
                       \/ (User.id u <> User.id user /\ g u = u)).
  { intros u Hu. unfold g.
    destruct (String.eqb (User.id u) (User.id user)) eqn:He.
    - apply String.eqb_eq in He.
      rewrite (unique_ids_same_row s u user Hids Hu Hin He). left. auto.
    - apply String.eqb_neq in He. right. auto. }
  split.
  - unfold userRepository.findOne, s'. simpl. fold g. rewrite <- Hg_user.
    apply find_map_only; [exact Hin | |].
    + rewrite Hg_user. unfold by_email. simpl. apply String.eqb_refl.
    + intros b Hb Hp. destruct (Hg_cases b Hb) as [[-> _]|[_ Hgb]];
        [reflexivity|].
      exfalso. rewrite Hgb in Hp. unfold by_email in Hp.
      apply String.eqb_eq in Hp. exact (Hnone b Hb Hp).
  - intros Hemails. split.
    + unfold userRepository.findOne, s'. simpl. fold g.
      apply find_all_false. intros a Ha. apply in_map_iff in Ha as (u & <- & Hu).
      unfold by_email. apply String.eqb_neq.
      destruct (Hg_cases u Hu) as [[-> Hgu]|[Hid Hgu]]; rewrite Hgu.
      * simpl. congruence.
      * intros He. apply Hid. f_equal.
        exact (unique_emails_same_row s u user Hemails Hu Hin He).
    + unfold unique_emails, s'. simpl. fold g. rewrite map_map.
      apply NoDup_map_NoDup_ForallPairs.
      * intros a b Ha Hb He. cbv beta in He.
        destruct (Hg_cases a Ha) as [[-> Hga]|[Hida Hga]];
          destruct (Hg_cases b Hb) as [[-> Hgb]|[Hidb Hgb]];
          rewrite ?Hga, ?Hgb in He.
        -- reflexivity.
        -- exfalso. simpl in He. exact (Hnone b Hb (eq_sym He)).
        -- exfalso. simpl in He. exact (Hnone a Ha He).
        -- exact (unique_emails_same_row s a b Hemails Ha Hb He).
      * apply (NoDup_map_inv User.id). exact Hids.
Qed.

(** X11.  A [changeEmail] of user.service that answers with an error has
    written nothing.  One that succeeds moves the user: the new address
    finds the same user with only the email changed, and where emails
    were unique the old address finds nobody and emails stay unique. *)
Theorem changeEmail_moves_user (email newEmail : string) (s : State) :
  unique_ids s ->
  let s' := snd (changeEmail email newEmail s) in
  (result (fst (changeEmail email newEmail s)) = error -> s' = s)
  /\ (result (fst (changeEmail email newEmail s)) = success ->
      exists user,
        userRepository.findOne (by_email email) s = Some user
        /\ userRepository.findOne (by_email newEmail) s'
           = Some (User.with_email newEmail user)
        /\ (unique_emails s ->
            userRepository.findOne (by_email email) s' = None
            /\ unique_emails s')).
Proof.
  intros Hids. unfold changeEmail.
  destruct (userRepository.findOne (by_email email) s) as [user|] eqn:Hfind;
    [|simpl; split; [reflexivity | discriminate]].
  destruct (findOne_In _ _ _ Hfind) as [Hin He]. apply String.eqb_eq in He.
  destruct (String.eqb (User.email user) newEmail) eqn:Hsame;
    [simpl; split; [reflexivity | discriminate]|].
  destruct (userRepository.findOne (by_email newEmail) s) eqn:Hfree;
    [simpl; split; [reflexivity | discriminate]|].
  simpl. split; [discriminate|]. intros _. exists user.
  apply String.eqb_neq in Hsame.
  destruct (email_update s user newEmail Hids Hin Hsame Hfree) as [Hnew Hold].
  rewrite <- He. auto.
Qed.

(** X12.  The same for [changeEmail] of settings.service, which looks the user
    up by id and email together: an error writes nothing; a success
    moves the user with this id from the old address to the new one. *)
Theorem settings_changeEmail_moves_user
    (id email newEmail : string) (s : State) :
  unique_ids s ->
  let s' := snd (settings_changeEmail id email newEmail s) in
  (result (fst (settings_changeEmail id email newEmail s)) = error -> s' = s)
  /\ (result (fst (settings_changeEmail id email newEmail s)) = success ->
      exists user,
        userRepository.findOne (by_id_email id email) s = Some user
        /\ User.id user = id
        /\ userRepository.findOne (by_email newEmail) s'
           = Some (User.with_email newEmail user)
        /\ (unique_emails s ->
            userRepository.findOne (by_email email) s' = None
            /\ unique_emails s')).
Proof.
  intros Hids. unfold settings_changeEmail.
  destruct (userRepository.findOne (by_id_email id email) s) as [user|]
    eqn:Hfind; [|simpl; split; [reflexivity | discriminate]].
  destruct (findOne_In _ _ _ Hfind) as [Hin He].
  unfold by_id_email in He. apply andb_true_iff in He as [Hid He].
  apply String.eqb_eq in Hid, He.
  destruct (String.eqb (User.email user) newEmail) eqn:Hsame;
    [simpl; split; [reflexivity | discriminate]|].
  destruct (userRepository.findOne (by_email newEmail) s) eqn:Hfree;
    [simpl; split; [reflexivity | discriminate]|].
  simpl. split; [discriminate|]. intros _. exists user.
  apply String.eqb_neq in Hsame.
  destruct (email_update s user newEmail Hids Hin Hsame Hfree) as [Hnew Hold].
  rewrite <- He. auto.
Qed.

Lemma findOne_by_id_update (userId id : string) (f : User.t -> User.t)
    (s : State) :
  (forall u, User.id (f u) = User.id u) ->
  userRepository.findOne (by_id userId) (userRepository.update id f s)
  = option_map (fun u => if String.eqb (User.id u) id then f u else u)
      (userRepository.findOne (by_id userId) s).
Proof.
  intros Hid. unfold userRepository.findOne, userRepository.update. simpl.
  apply find_map_stable. intros u. unfold by_id.
  destruct (String.eqb (User.id u) id); [rewrite Hid|]; reflexivity.
Qed.

(** X14.  [changePassword] of the settings service: a current password that
    [bcrypt.compare] refuses changes nothing; one it accepts stores the
    hash of the new password and leaves the reset token as it was; and
    when [compare] accepts every password against its own hash, the new
    password is the one accepted as current from then on. *)
Theorem changePassword_round_trip
    (userId currentPassword newPassword : string) (env : Env.t) (s : State)
    (user : User.t) :
  userRepository.findOne (by_id userId) s = Some user ->
  let s' := snd (changePassword userId currentPassword newPassword env s) in
  (bcrypt_compare currentPassword (User.password user) = false ->
   changePassword userId currentPassword newPassword env s
   = (failure "Current password is incorrect", s))
  /\ (bcrypt_compare currentPassword (User.password user) = true ->
      fst (changePassword userId currentPassword newPassword env s)
      = mkResponse success "Password updated successfully" DNull
      /\ userRepository.findOne (by_id userId) s'
         = Some (User.with_password
                   (bcrypt_hash newPassword BCRYPT_ROUNDS (Env.salt env))
                   user)
      /\ ((forall data salt,
              bcrypt_compare data (bcrypt_hash data BCRYPT_ROUNDS salt)
              = true) ->
          forall next env2,
            result (fst (changePassword userId newPassword next env2 s'))
            = success)).
Proof.
  intros Hfind. unfold changePassword at 1 2 3. rewrite Hfind.
  split; intros Hcmp; rewrite Hcmp; simpl; [reflexivity|].
  assert (Hfind' : userRepository.findOne (by_id userId)
                     (userRepository.update (User.id user)
                        (User.with_password
                           (bcrypt_hash newPassword BCRYPT_ROUNDS
                              (Env.salt env))) s)
                   = Some (User.with_password
                             (bcrypt_hash newPassword BCRYPT_ROUNDS
                                (Env.salt env)) user)).
  { rewrite findOne_by_id_update by reflexivity.
    rewrite Hfind. simpl. rewrite String.eqb_refl. reflexivity. }
  split; [reflexivity|]. split; [exact Hfind'|].
  intros Hbcrypt next env2. unfold changePassword.
  rewrite Hfind'. simpl. rewrite Hbcrypt. reflexivity.
Qed.

(** X15.  [updateCommunicationPreferences]: for a user with a settings object
    the three flags read back through [getSettings] as sent, the verified
    flag and the language are as before, and no other field of the user
    changes; for a user without one the answer is an error and nothing is
    written. *)
Theorem updateCommunicationPreferences_outcome
    (dto : UpdateCommunicationPreferencesDto.t) (userId : string) (s : State)
    (user : User.t) :
  userRepository.findOne (by_id userId) s = Some user ->
  let s' := snd (updateCommunicationPreferences dto userId s) in
  match User.settings user with
  | Some st =>
      result (fst (updateCommunicationPreferences dto userId s)) = success
      /\ exists st',
           getSettings userId s' = Returned (Some st')
           /\ userRepository.findOne (by_id userId) s'
              = Some (User.with_settings (Some st') user)
           /\ Settings.notificationsEmail st'
              = UpdateCommunicationPreferencesDto.notificationsEmail dto
           /\ Settings.notificationsSms st'
              = UpdateCommunicationPreferencesDto.notificationsSms dto
           /\ Settings.securityTwoFactorAuth st'
              = UpdateCommunicationPreferencesDto.securityTwoFactorAuth dto
           /\ Settings.verified st' = Settings.verified st
           /\ Settings.language st' = Settings.language st
  | None =>
      result (fst (updateCommunicationPreferences dto userId s)) = error
      /\ s' = s
  end.
Proof.
  intros Hfind. unfold updateCommunicationPreferences. rewrite Hfind.
  destruct (User.settings user) as [st|] eqn:Hst; [|split; reflexivity].
  split; [reflexivity|]. exists (assign_preferences dto st).
  assert (Hfind' : userRepository.findOne (by_id userId)
                     (userRepository.save
                        (User.with_settings
                           (Some (assign_preferences dto st)) user) s)
                   = Some (User.with_settings
                             (Some (assign_preferences dto st)) user)).
  { apply (findOne_by_id_save userId s user); [exact Hfind | reflexivity]. }
  split.
  - unfold getSettings. simpl snd. rewrite Hfind'. reflexivity.
  - split; [exact Hfind'|]. repeat split; reflexivity.
Qed.

(** X16.  [updateLanguage]: for a user with a settings object it returns the
    settings that [getSettings] reads afterwards, with the language sent
    and everything else as before; for a user without one it throws a
    [TypeError] that nothing catches and writes nothing; for an unknown
    id it throws the same not-found exception as [getSettings]. *)
Theorem updateLanguage_outcome
    (userId : string) (dto : ChangeLanguageDto.t) (s : State) :
  let s' := snd (updateLanguage userId dto s) in
  match userRepository.findOne (by_id userId) s with
  | None =>
      updateLanguage userId dto s
      = (HttpException NOT_FOUND "User not found", s)
      /\ getSettings userId s = HttpException NOT_FOUND "User not found"
  | Some user =>
      match User.settings user with
      | Some st =>
          fst (updateLanguage userId dto s) = getSettings userId s'
          /\ getSettings userId s'
             = Returned (Some (Settings.with_language
                                 (ChangeLanguageDto.language dto) st))
      | None =>
          (exists msg, fst (updateLanguage userId dto s) = TypeError msg)
          /\ s' = s
      end
  end.
Proof.
  intros s'. unfold s'. clear s'.
  destruct (userRepository.findOne (by_id userId) s) as [user|] eqn:Hfind.
  - destruct (User.settings user) as [st|] eqn:Hst;
      unfold updateLanguage; rewrite Hfind, Hst; simpl.
    + unfold getSettings.
      rewrite (findOne_by_id_save userId s user
                 (User.with_settings
                    (Some (Settings.with_language
                             (ChangeLanguageDto.language dto) st)) user)
                 Hfind eq_refl).
      split; reflexivity.
    + split; [eexists; reflexivity | reflexivity].
  - unfold updateLanguage, getSettings. rewrite Hfind. split; reflexivity.
Qed.

(** ** Beyond the claims: registration *)

Lemma generateOtp_users (email : string) (resend : bool) (env : Env.t)
    (s : State) :
  users (snd (generateOtp email resend env s)) = users s.
Proof.
  destruct (userRepository.findOne (by_email email) s) as [user|] eqn:Hfind.
  - exact (proj1 (generateOtp_store email resend env s user Hfind)).
  - unfold generateOtp. rewrite Hfind. reflexivity.
Qed.

(** Past its three checks, [create] has the new row stored whatever the
    two mail sends do. *)
Lemma create_users (dto : CreateUserDto.t) (fresh : NewRow.t)
    (env env_otp : Env.t) (s : State) :
  userRepository.findOne (by_email (CreateUserDto.email dto)) s = None ->
  userRepository.findOne (by_phone (CreateUserDto.phone dto)) s = None ->
  CreateUserDto.password dto = CreateUserDto.confirmPassword dto ->
  users (snd (create dto fresh env env_otp s))
  = (users s
     ++ [created_user dto
           (bcrypt_hash (CreateUserDto.password dto) BCRYPT_ROUNDS
              (Env.salt env)) fresh])%list.
Proof.
  intros Hemail Hphone Hpw. unfold create.
  rewrite Hemail, Hphone, (proj2 (String.eqb_eq _ _) Hpw). simpl negb. cbv match.
  unfold mailerService.sendEmail.
  destruct (Env.mail env);
    try (match goal with
         | |- context [generateOtp ?e ?r ?v ?st] =>
             pose proof (generateOtp_users e r v st) as Hu;
             destruct (generateOtp e r v st) as [resp s3]
         end;
         simpl in Hu; destruct (result resp); simpl; exact Hu).
  reflexivity.
Qed.

Lemma findOne_appended (email : string) (s : State) (row : User.t)
    (l : list User.t) :
  userRepository.findOne (by_email email) s = None ->
  User.email row = email ->
  find (by_email email) (users s ++ row :: l) = Some row.
Proof.
  intros Hnone He. rewrite find_app_miss by exact Hnone.
  simpl. unfold by_email. rewrite He, String.eqb_refl. reflexivity.
Qed.

(** X17.  [create] stores the user before it sends anything and takes nothing
    back: once the three checks pass, the row is found under its email
    whatever the mail sends do; a rejected welcome mail makes [create]
    throw a bad-request exception with the thrown message; and any later
    [create] for the same email is refused as a duplicate. *)
Theorem create_is_not_rolled_back
    (dto : CreateUserDto.t) (fresh : NewRow.t) (env env_otp : Env.t)
    (s : State) :
  userRepository.findOne (by_email (CreateUserDto.email dto)) s = None ->
  userRepository.findOne (by_phone (CreateUserDto.phone dto)) s = None ->
  CreateUserDto.password dto = CreateUserDto.confirmPassword dto ->
  let s' := snd (create dto fresh env env_otp s) in
  userRepository.findOne (by_email (CreateUserDto.email dto)) s'
  = Some (created_user dto
            (bcrypt_hash (CreateUserDto.password dto) BCRYPT_ROUNDS
               (Env.salt env)) fresh)
  /\ (forall msg,
        Env.mail env = MailRejects msg ->
        fst (create dto fresh env env_otp s)
        = HttpException BAD_REQUEST (or_default msg "Failed to create user"))
  /\ (forall dto2 fresh2 env2 env_otp2,
        CreateUserDto.email dto2 = CreateUserDto.email dto ->
        create dto2 fresh2 env2 env_otp2 s'
        = (HttpException BAD_REQUEST "User with email already exists", s')).
Proof.
  intros Hemail Hphone Hpw s'.
  assert (Hstored : userRepository.findOne
                      (by_email (CreateUserDto.email dto)) s'
                    = Some (created_user dto
                              (bcrypt_hash (CreateUserDto.password dto)
                                 BCRYPT_ROUNDS (Env.salt env)) fresh)).
  { unfold userRepository.findOne, s'.
    rewrite (create_users dto fresh env env_otp s Hemail Hphone Hpw).
    apply findOne_appended; [exact Hemail | reflexivity]. }
  split; [exact Hstored|]. split.
  - intros msg Hmail. unfold create.
    rewrite Hemail, Hphone, (proj2 (String.eqb_eq _ _) Hpw). simpl negb. cbv match.
    unfold mailerService.sendEmail. rewrite Hmail. reflexivity.
  - intros dto2 fresh2 env2 env_otp2 Hsame. unfold create.
    rewrite Hsame, Hstored. reflexivity.
Qed.

(** X18.  A registration that passes the three checks and whose two mail sends
    do not reject returns the stored user, whose password is the hash and
    who is found under the email; and if that user is not verified yet
    and its id had no record, the code drawn for it is accepted by
    [verifyOtp] up to its expiry. *)
Theorem create_registers
    (dto : CreateUserDto.t) (fresh : NewRow.t) (env env_otp env_v : Env.t)
    (s : State) :
  userRepository.findOne (by_email (CreateUserDto.email dto)) s = None ->
  userRepository.findOne (by_phone (CreateUserDto.phone dto)) s = None ->
  CreateUserDto.password dto = CreateUserDto.confirmPassword dto ->
  (forall msg, Env.mail env <> MailRejects msg) ->
  (forall msg, Env.mail env_otp <> MailRejects msg) ->
  let user := created_user dto
                (bcrypt_hash (CreateUserDto.password dto) BCRYPT_ROUNDS
                   (Env.salt env)) fresh in
  let s' := snd (create dto fresh env env_otp s) in
  fst (create dto fresh env env_otp s)
  = Returned (mkResponse success "User created successfully" (DUser user))
  /\ userRepository.findOne (by_email (CreateUserDto.email dto)) s'
     = Some user
  /\ (User.settings_and_verified user = false ->
      otpRepository.findOne (by_userId (NewRow.id fresh)) s = None ->
      (Env.now env_v <= Env.now env_otp + OTP_TTL_MS)%Z ->
      fst (verifyOtp (CreateUserDto.email dto) (drawn_otp env_otp) env_v s')
      = mkResponse success "OTP verified successfully" DNull).
Proof.
  intros Hemail Hphone Hpw Hmail Hmail_otp user s'.
  (* the store in which the nested issuance runs *)
  set (s1 := userRepository.save_new user s).
  assert (Hsent : exists s2,
             mailerService.sendEmail "team" (CreateUserDto.email dto)
               "Welcome to Footiedrop!"
               ("Welcome to our platform, "
                ++ CreateUserDto.firstName dto ++ "!") env s1 = inr s2
             /\ users s2 = users s1 /\ otps s2 = otps s1
             /\ next_otp_id s2 = next_otp_id s1).
  { unfold mailerService.sendEmail.
    destruct (Env.mail env) as [| |msg] eqn:Hm.
    - eexists. split; [reflexivity|]. simpl. auto.
    - eexists. split; [reflexivity|]. simpl. auto.
    - exfalso. exact (Hmail msg eq_refl). }
  destruct Hsent as (s2 & Hsend & Husers2 & Hotps2 & Hnext2).
  assert (Hfind2 : userRepository.findOne
                     (by_email (CreateUserDto.email dto)) s2 = Some user).
  { unfold userRepository.findOne. rewrite Husers2. simpl.
    apply findOne_appended; [exact Hemail | reflexivity]. }
  assert (Hresp : fst (generateOtp (CreateUserDto.email dto) false env_otp s2)
                  = mkResponse success "OTP generated successfully"
                      (DOtp (User.id user) (Env.now env_otp + OTP_TTL_MS))).
  { rewrite (generateOtp_response _ _ _ _ _ Hfind2).
    destruct (Env.mail env_otp) as [| |msg] eqn:Hm; try reflexivity.
    exfalso. exact (Hmail_otp msg eq_refl). }
  assert (Hrun : create dto fresh env env_otp s
                 = (Returned (mkResponse success "User created successfully"
                                (DUser user)),
                    snd (generateOtp (CreateUserDto.email dto) false
                           env_otp s2))).
  { unfold create.
    rewrite Hemail, Hphone, (proj2 (String.eqb_eq _ _) Hpw). simpl negb. cbv match.
    fold user. fold s1. rewrite Hsend.
    destruct (generateOtp (CreateUserDto.email dto) false env_otp s2)
      as [resp s3].
    simpl in Hresp. rewrite Hresp. reflexivity. }
  unfold s'. rewrite Hrun. simpl fst. simpl snd.
  split; [reflexivity|]. split.
  - unfold userRepository.findOne. rewrite generateOtp_users. exact Hfind2.
  - intros Hflag Hnone Hnow.
    assert (Hnone2 : otpRepository.findOne (by_userId (User.id user)) s2
                     = None).
    { unfold otpRepository.findOne. rewrite Hotps2. exact Hnone. }
    destruct (first_issuance_store _ false env_otp s2 user Hfind2 Hnone2)
      as (Hfind3 & Hotps3 & _ & _).
    rewrite (verifyOtp_unverified _ _ _ _ _ Hfind3 Hflag).
    unfold otp_lookup_outcome, otpRepository.findOne. rewrite Hotps3.
    rewrite find_app_miss.
    + simpl. unfold by_userId_otp. simpl. rewrite !String.eqb_refl. simpl.
      apply Z.ltb_ge in Hnow. rewrite Hnow. reflexivity.
    + eapply find_none_weaken; [|exact Hnone2].
      intros r. apply by_userId_otp_implies.
Qed.

(** ** Beyond the claims: invariants of the user table *)

Lemma Forall2_map_eq {A B : Type} (f : A -> B) (l l' : list A) :
  Forall2 (fun a a' => f a' = f a) l l' -> map f l' = map f l.
Proof.
  induction 1 as [|a a' l l' Ha _ IH]; simpl; [reflexivity|].
  rewrite Ha, IH. reflexivity.
Qed.

Lemma Forall2_firstn {A : Type} (R : A -> A -> Prop) (l l' : list A) :
  Forall2 R l l' -> Forall2 R l (firstn (List.length l) l').
Proof.
  intros H. rewrite (Forall2_length H), firstn_all. exact H.
Qed.

Lemma NoDup_snoc {A : Type} (l : list A) (a : A) :
  NoDup l -> ~ In a l -> NoDup (l ++ [a]).
Proof.
  intros Hnd Hnotin. apply NoDup_app; [exact Hnd | repeat constructor; auto|].
  intros b Hb [<-|[]]. contradiction.
Qed.

Lemma findOne_none_not_in_emails (email : string) (s : State) :
  userRepository.findOne (by_email email) s = None ->
  ~ In email (map User.email (users s)).
Proof.
  intros Hnone Hin. apply in_map_iff in Hin as (u & He & Hu).
  pose proof (find_none _ _ Hnone u Hu) as Hp. unfold by_email in Hp.
  rewrite He, String.eqb_refl in Hp. discriminate.
Qed.

(** X10.  Every request of the credential core and of the presence toggle
    leaves each stored user in place with its id, email, phone and first
    name, and leaves a verified user verified; unique ids stay unique and
    so do unique emails. *)
Theorem credential_requests_frame
    (req : Request) (env : Env.t) (s : State) :
  unique_ids s ->
  let s' := handle req env s in
  Forall2 credential_frame (users s) (users s')
  /\ unique_ids s'
  /\ (unique_emails s -> unique_emails s').
Proof.
  intros Hids s'. pose proof (credential_rows req env s Hids) as Hrows.
  fold s' in Hrows. split; [exact Hrows|].
  assert (Hid : map User.id (users s') = map User.id (users s)).
  { apply Forall2_map_eq. eapply Forall2_impl; [|exact Hrows].
    intros u u' H. apply H. }
  assert (Hem : map User.email (users s') = map User.email (users s)).
  { apply Forall2_map_eq. eapply Forall2_impl; [|exact Hrows].
    intros u u' H. apply H. }
  unfold unique_ids, unique_emails. rewrite Hid, Hem. auto.
Qed.

Lemma settled_refl (u : User.t) : settled u u.
Proof. unfold settled, account_frame. auto. Qed.

(** X19.  Every account request (registration, email, phone, password,
    preferences, language) leaves each user that was stored in place with
    its id, status and reset token, and leaves a verified user verified;
    unique ids stay unique, given that the id generated for a
    registration is not in use, and so do unique emails. *)
Theorem account_requests_frame
    (req : AccountRequest) (env : Env.t) (s : State) :
  unique_ids s ->
  fresh_id req s ->
  let s' := handle_account req env s in
  Forall2 account_frame (users s)
    (firstn (List.length (users s)) (users s'))
  /\ unique_ids s'
  /\ (unique_emails s -> unique_emails s').
Proof.
  intros Hids Hfresh.
  assert (Hsettled : forall s1,
             Forall2 settled (users s) (users s1) ->
             Forall2 account_frame (users s)
               (firstn (List.length (users s)) (users s1))
             /\ unique_ids s1
             /\ (unique_emails s -> unique_emails s1)).
  { intros s1 Hrows.
    assert (Hid : map User.id (users s1) = map User.id (users s)).
    { apply Forall2_map_eq. eapply Forall2_impl; [|exact Hrows].
      intros u u' H. apply H. }
    assert (Hem : map User.email (users s1) = map User.email (users s)).
    { apply Forall2_map_eq. eapply Forall2_impl; [|exact Hrows].
      intros u u' H. apply H. }
    split; [|unfold unique_ids, unique_emails; rewrite Hid, Hem; auto].
    apply Forall2_firstn. eapply Forall2_impl; [|exact Hrows].
    intros u u' H. apply H. }
  pose proof (Forall2_same settled (users s) settled_refl) as Hsame.
  assert (Hemail : forall user newEmail,
             userRepository.findOne (by_email newEmail) s = None ->
             In user (users s) ->
             String.eqb (User.email user) newEmail = false ->
             let s1 := userRepository.update (User.id user)
                         (User.with_email newEmail) s in
             Forall2 account_frame (users s)
               (firstn (List.length (users s)) (users s1))
             /\ unique_ids s1
             /\ (unique_emails s -> unique_emails s1)).
  { intros user newEmail Hfree Hin Hneq s1.
    assert (Hrows : Forall2 account_frame (users s) (users s1)).
    { apply (update_rows account_frame); intros u;
        unfold account_frame; auto. }
    split; [apply Forall2_firstn; exact Hrows|]. split.
    - unfold unique_ids.
      replace (map User.id (users s1)) with (map User.id (users s));
        [exact Hids|].
      symmetry. apply Forall2_map_eq. eapply Forall2_impl; [|exact Hrows].
      intros u u' H. apply H.
    - apply String.eqb_neq in Hneq.
      apply (email_update s user newEmail Hids Hin Hneq Hfree). }
  destruct req; simpl.
  - (* create *)
    simpl in Hfresh.
    destruct (userRepository.findOne
                (by_email (CreateUserDto.email createUserDto)) s)
      eqn:He.
    { unfold create. rewrite He. apply Hsettled. exact Hsame. }
    destruct (userRepository.findOne
                (by_phone (CreateUserDto.phone createUserDto)) s)
      eqn:Hp.
    { unfold create. rewrite He, Hp. apply Hsettled. exact Hsame. }
    destruct (String.eqb (CreateUserDto.password createUserDto)
                (CreateUserDto.confirmPassword createUserDto)) eqn:Hpw.
    2:{ unfold create. rewrite He, Hp, Hpw. apply Hsettled. exact Hsame. }
    apply String.eqb_eq in Hpw.
    pose proof (create_users createUserDto fresh env env_otp s He Hp Hpw)
      as Husers.
    rewrite Husers. split; [|split].
    + rewrite firstn_app, Nat.sub_diag, firstn_all. simpl.
      rewrite app_nil_r. apply Forall2_same.
      intros u. unfold account_frame. auto.
    + unfold unique_ids. rewrite Husers, map_app. simpl.
      apply NoDup_snoc; [exact Hids | exact Hfresh].
    + intros Hemails. unfold unique_emails. rewrite Husers, map_app. simpl.
      apply NoDup_snoc; [exact Hemails|].
      apply findOne_none_not_in_emails. exact He.
  - (* changeEmail of user.service *)
    unfold changeEmail.
    destruct (userRepository.findOne (by_email email) s) as [user|] eqn:Hfind;
      [|apply Hsettled; exact Hsame].
    destruct (String.eqb (User.email user) newEmail) eqn:Hneq;
      [apply Hsettled; exact Hsame|].
    destruct (userRepository.findOne (by_email newEmail) s) eqn:Hfree;
      [apply Hsettled; exact Hsame|].
    apply Hemail; auto. exact (proj1 (findOne_In _ _ _ Hfind)).
  - (* changeEmail of settings.service *)
    unfold settings_changeEmail.
    destruct (userRepository.findOne (by_id_email id email) s) as [user|]
      eqn:Hfind; [|apply Hsettled; exact Hsame].
    destruct (String.eqb (User.email user) newEmail) eqn:Hneq;
      [apply Hsettled; exact Hsame|].
    destruct (userRepository.findOne (by_email newEmail) s) eqn:Hfree;
      [apply Hsettled; exact Hsame|].
    apply Hemail; auto. exact (proj1 (findOne_In _ _ _ Hfind)).
  - unfold changePhoneNumber.
    destruct (userRepository.findOne _ s) as [user|];
      apply Hsettled; [|exact Hsame].
    apply (update_rows settled); auto using settled_refl.
    intros u. unfold settled, account_frame. auto.
  - unfold changePassword.
    destruct (userRepository.findOne _ s) as [user|];
      [|apply Hsettled; exact Hsame].
    destruct (negb _); apply Hsettled; [exact Hsame|].
    apply (update_rows settled); auto using settled_refl.
    intros u. unfold settled, account_frame. auto.
  - unfold updateCommunicationPreferences.
    destruct (userRepository.findOne _ s) as [user|] eqn:Hfind;
      [|apply Hsettled; exact Hsame].
    destruct (User.settings user) as [st|] eqn:Hst;
      apply Hsettled; [|exact Hsame].
    apply (save_rows s user); auto using settled_refl.
    + exact (proj1 (findOne_In _ _ _ Hfind)).
    + unfold settled, account_frame, User.settings_and_verified.
      simpl. rewrite Hst. auto.
  - unfold updateLanguage.
    destruct (userRepository.findOne _ s) as [user|] eqn:Hfind;
      [|apply Hsettled; exact Hsame].
    destruct (User.settings user) as [st|] eqn:Hst;
      apply Hsettled; [|exact Hsame].
    apply (save_rows s user); auto using settled_refl.
    + exact (proj1 (findOne_In _ _ _ Hfind)).
    + unfold settled, account_frame, User.settings_and_verified.
      simpl. rewrite Hst. auto.
  - apply Hsettled. exact Hsame.
Qed.

End UserService.

(** ** The theorems on sample data *)

(** [u2] has no settings object: its verification goes straight to the
    record lookup.  [u3] is the kind of user the guard answers for. *)
Lemma verifyOtp_guard_needs_settings_object_witness :
  verifyOtp "b@x.com" "5500" (Demo.delivering Demo.t0) Demo.s0
  = otp_lookup_outcome Demo.u2 "5500" (Demo.delivering Demo.t0) Demo.s0
  /\ exists user st,
       userRepository.findOne (by_email "c@x.com") Demo.s0 = Some user
       /\ User.settings user = Some st
       /\ Settings.verified st = true.
Proof.
  split.
  - apply (proj1 (verifyOtp_guard_needs_settings_object
                    "b@x.com" "5500" (Demo.delivering Demo.t0) Demo.s0));
      reflexivity.
  - apply (proj2 (verifyOtp_guard_needs_settings_object
                    "c@x.com" "5500" (Demo.delivering Demo.t0) Demo.s0)).
    reflexivity.
Defined.

(** One millisecond after the expiry of the stored record, its own code is
    answered with "OTP has expired". *)
Lemma verifyOtp_after_expiry_witness :
  fst (verifyOtp "a@x.com" "1234" (Demo.delivering (Demo.t0 + 1))
         Demo.s_expired)
  = failure "OTP has expired"
  /\ snd (verifyOtp "a@x.com" "1234" (Demo.delivering (Demo.t0 + 1))
            Demo.s_expired)
     = Demo.s_expired.
Proof.
  destruct (verifyOtp_after_expiry "a@x.com" "1234"
              (Demo.delivering (Demo.t0 + 1)) Demo.s_expired Demo.u1)
    as (_ & Hstate & Hkind).
  - reflexivity.
  - intros r Hr. vm_compute in Hr. inversion Hr. reflexivity.
  - split; [|exact Hstate]. apply (Hkind eq_refl).
Defined.

(** C7 fails as stated: after the expiry of the stored record a code that
    is not the stored one is answered with "Invalid OTP", which is not the
    Expired kind. *)
Lemma verifyOtp_after_expiry_wrong_code :
  (exists r,
      In r (otps Demo.s_expired)
      /\ VerificationOtp.userId r = User.id Demo.u1
      /\ (VerificationOtp.expires_at r < Env.now (Demo.delivering (Demo.t0 + 1)))%Z)
  /\ fst (verifyOtp "a@x.com" "9999" (Demo.delivering (Demo.t0 + 1))
            Demo.s_expired)
     = failure "Invalid OTP"
  /\ kind_of (fst (verifyOtp "a@x.com" "9999" (Demo.delivering (Demo.t0 + 1))
                     Demo.s_expired))
     <> Some Expired.
Proof.
  split; [|split].
  - eexists. split; [left; reflexivity|]. split; reflexivity.
  - reflexivity.
  - vm_compute. discriminate.
Defined.

(** Issue at [t0], verify one second later, verify again. *)
Lemma second_verifyOtp_already_verified_witness :
  let s1 := snd (generateOtp "a@x.com" false (Demo.delivering Demo.t0)
                   Demo.s0) in
  let s2 := snd (verifyOtp "a@x.com" "5500"
                   (Demo.delivering (Demo.t0 + 1000)) s1) in
  verifyOtp "a@x.com" "5500" (Demo.delivering (Demo.t0 + 2000)) s2
  = (failure "User is already verified", s2).
Proof.
  apply (second_verifyOtp_already_verified "a@x.com" false
           (Demo.delivering Demo.t0) (Demo.delivering (Demo.t0 + 1000))
           (Demo.delivering (Demo.t0 + 2000)) Demo.s0 Demo.u1);
    reflexivity.
Defined.

(** C5 fails as stated: the second verification is not answered with the
    InvalidCredential kind. *)
Lemma second_verifyOtp_not_InvalidCredential :
  let s1 := snd (generateOtp "a@x.com" false (Demo.delivering Demo.t0)
                   Demo.s0) in
  let first := verifyOtp "a@x.com" "5500"
                 (Demo.delivering (Demo.t0 + 1000)) s1 in
  let second := verifyOtp "a@x.com" "5500"
                  (Demo.delivering (Demo.t0 + 2000)) (snd first) in
  result (fst first) = success
  /\ kind_of (fst second) = Some AlreadyVerified
  /\ kind_of (fst second) <> Some InvalidCredential.
Proof.
  vm_compute. repeat split; discriminate.
Defined.

(** The send of the issuance rejects; the code still verifies. *)
Lemma generateOtp_then_verifyOtp_witness :
  let env1 := Demo.at_ Demo.t0 (MailRejects "connect ETIMEDOUT") in
  let s1 := snd (generateOtp "a@x.com" false env1 Demo.s0) in
  fst (generateOtp "a@x.com" false env1 Demo.s0)
  = failure "connect ETIMEDOUT"
  /\ fst (verifyOtp "a@x.com" "5500" (Demo.delivering (Demo.t0 + 1000)) s1)
     = mkResponse success "OTP verified successfully" DNull.
Proof.
  intros env1 s1.
  destruct (generateOtp_then_verifyOtp "a@x.com" false env1
              (Demo.delivering (Demo.t0 + 1000)) Demo.s0 Demo.u1)
    as (Hissue & Hverify & _).
  - reflexivity.
  - reflexivity.
  - reflexivity.
  - vm_compute. discriminate.
  - split; [exact Hissue | exact Hverify].
Defined.

(** C9 fails as stated: [u1] exists, is not verified and has no record,
    and the issuance for it does not succeed when its mail send rejects. *)
Lemma generateOtp_fresh_user_rejected_send :
  let env := Demo.at_ Demo.t0 (MailRejects "connect ETIMEDOUT") in
  userRepository.findOne (by_email "a@x.com") Demo.s0 = Some Demo.u1
  /\ User.settings_and_verified Demo.u1 = false
  /\ otpRepository.findOne (by_userId (User.id Demo.u1)) Demo.s0 = None
  /\ result (fst (generateOtp "a@x.com" false env Demo.s0)) = error
  /\ result (fst (generateOtp "a@x.com" false env Demo.s0)) <> success.
Proof.
  vm_compute. repeat split; try reflexivity. discriminate.
Defined.

Lemma verifyOtp_success_frame_witness :
  let s1 := snd (generateOtp "a@x.com" false (Demo.delivering Demo.t0)
                   Demo.s0) in
  let s2 := snd (verifyOtp "a@x.com" "5500"
                   (Demo.delivering (Demo.t0 + 1000)) s1) in
  next_otp_id s2 = next_otp_id s1 /\ outbox s2 = outbox s1.
Proof.
  intros s1 s2.
  destruct (verifyOtp_success_frame "a@x.com" "5500"
              (Demo.delivering (Demo.t0 + 1000)) s1)
    as (user & r & _ & _ & _ & _ & Hid & Hout).
  - reflexivity.
  - split; [exact Hid | exact Hout].
Defined.

Lemma single_otp_s_expired : single_otp Demo.s_expired.
Proof.
  intros userId. unfold otp_count, Demo.s_expired.
  cbn [otps filter].
  destruct (by_userId userId _); simpl; lia.
Qed.

(** A resend for [u1], who holds one record, keeps the invariant; the
    same issuance without [resend] gives [u1] two records. *)
Lemma single_otp_preserved_witness :
  single_otp
    (handle Demo.signAsync Demo.verify Demo.hash
       (GenerateOtp "a@x.com" true) (Demo.delivering (Demo.t0 + 1000))
       Demo.s_expired)
  /\ otp_count "u1"
       (handle Demo.signAsync Demo.verify Demo.hash
          (GenerateOtp "a@x.com" false) (Demo.delivering (Demo.t0 + 1000))
          Demo.s_expired)
     = 2.
Proof.
  split.
  - apply (proj1 (single_otp_preserved Demo.signAsync Demo.verify Demo.hash
                    (GenerateOtp "a@x.com" true)
                    (Demo.delivering (Demo.t0 + 1000)) Demo.s_expired)).
    + exact single_otp_s_expired.
    + exact I.
  - apply (proj2 (single_otp_preserved Demo.signAsync Demo.verify Demo.hash
                    (GenerateOtp "a@x.com" false)
                    (Demo.delivering (Demo.t0 + 1000)) Demo.s_expired)
             "a@x.com" Demo.u1 (VerificationOtp.mk 1 "u1" "1234" Demo.t0));
      reflexivity.
Defined.

(** C2 fails as stated: an issuance without [resend] for a user that
    holds a record breaks the invariant. *)
Lemma generateOtp_without_resend_duplicates :
  single_otp Demo.s_expired
  /\ ~ single_otp
         (snd (generateOtp "a@x.com" false (Demo.delivering (Demo.t0 + 1000))
                 Demo.s_expired)).
Proof.
  split; [exact single_otp_s_expired|].
  intros Hinv. specialize (Hinv "u1"). vm_compute in Hinv. lia.
Defined.

Lemma generateOtp_mail_failure_witness :
  let env := Demo.at_ Demo.t0 (MailFailure "mailbox unavailable") in
  fst (generateOtp "a@x.com" false env Demo.s0)
  = mkResponse success "OTP generated successfully"
      (DOtp "u1" (Demo.t0 + OTP_TTL_MS))
  /\ In (issued_record Demo.u1 env Demo.s0)
        (otps (snd (generateOtp "a@x.com" false env Demo.s0))).
Proof.
  intros env.
  destruct (generateOtp_mail_failure "a@x.com" false env Demo.s0 Demo.u1)
    as (Hstored & _ & Hresponse).
  - reflexivity.
  - discriminate.
  - split; [exact Hresponse | exact Hstored].
Defined.

(** C4 fails as stated: the record is stored, the send rejects, and the
    issuance reports an error. *)
Lemma generateOtp_reports_rejected_send :
  let env := Demo.at_ Demo.t0 (MailRejects "connect ETIMEDOUT") in
  In (issued_record Demo.u1 env Demo.s0)
     (otps (snd (generateOtp "a@x.com" false env Demo.s0)))
  /\ fst (generateOtp "a@x.com" false env Demo.s0)
     = failure "connect ETIMEDOUT"
  /\ result (fst (generateOtp "a@x.com" false env Demo.s0)) <> success.
Proof.
  vm_compute. split; [left; reflexivity|]. split; [reflexivity | discriminate].
Defined.

(** A reset request for [u1] at [t0] issues [Demo.token0]; the password
    is then updated with it twice, one and two seconds later. *)
Lemma updatePassword_keeps_token_witness :
  let s1 := snd (generateResetToken Demo.signAsync (Jwt.mk "a@x.com")
                   (Demo.delivering Demo.t0) Demo.s0) in
  let s2 := snd (updatePassword Demo.verify Demo.hash Demo.token0 "newpass"
                   (Demo.delivering (Demo.t0 + 1000)) s1) in
  result (fst (updatePassword Demo.verify Demo.hash Demo.token0 "again"
                 (Demo.delivering (Demo.t0 + 2000)) s2))
  = success.
Proof.
  intros s1 s2.
  destruct (updatePassword_keeps_token Demo.verify Demo.hash Demo.token0
              "newpass" (Demo.delivering (Demo.t0 + 1000)) s1)
    as (decoded & user' & Hdecoded & _ & _ & _ & Hagain).
  - reflexivity.
  - apply Hagain.
    + rewrite <- Hdecoded. reflexivity.
    + intros msg. discriminate.
Defined.

(** C1 fails as stated: after a successful [updatePassword] the stored
    token is still the consumed one, not null, and a second call with the
    same token succeeds and replaces the password again. *)
Lemma updatePassword_token_replayed :
  let s1 := snd (generateResetToken Demo.signAsync (Jwt.mk "a@x.com")
                   (Demo.delivering Demo.t0) Demo.s0) in
  let first := updatePassword Demo.verify Demo.hash Demo.token0 "newpass"
                 (Demo.delivering (Demo.t0 + 1000)) s1 in
  let second := updatePassword Demo.verify Demo.hash Demo.token0 "again"
                  (Demo.delivering (Demo.t0 + 2000)) (snd first) in
  result (fst first) = success
  /\ option_map User.resetPasswordToken
       (userRepository.findOne (by_email "a@x.com") (snd first))
     = Some (Some Demo.token0)
  /\ result (fst second) = success
  /\ option_map User.password
       (userRepository.findOne (by_email "a@x.com") (snd second))
     = Some (Demo.hash "again" BCRYPT_ROUNDS "salt").
Proof.
  vm_compute. repeat split; reflexivity.
Defined.

(** Two reset requests for [u1], a minute apart; the first token, still
    within its ten minutes, is refused. *)
Lemma second_issuance_revokes_first_witness :
  let s1 := snd (generateResetToken Demo.signAsync (Jwt.mk "a@x.com")
                   (Demo.delivering Demo.t0) Demo.s0) in
  let s2 := snd (generateResetToken Demo.signAsync (Jwt.mk "a@x.com")
                   (Demo.delivering (Demo.t0 + 60000)) s1) in
  Demo.verify Demo.token0 JWT_SECRET (Demo.t0 + 120000)
  = Jwt.Decoded (Some (Jwt.mk "a@x.com"))
  /\ verifyResetToken Demo.verify Demo.token0
       (Demo.delivering (Demo.t0 + 120000)) s2
     = (mkResponse error "Invalid token" (DValid false), s2).
Proof.
  intros s1 s2. split; [reflexivity|].
  destruct (second_issuance_revokes_first Demo.signAsync Demo.verify
              (Jwt.mk "a@x.com") (Demo.delivering Demo.t0)
              (Demo.delivering (Demo.t0 + 60000))
              (Demo.delivering (Demo.t0 + 120000)) Demo.s0 Demo.u1)
    as (_ & Hrefused & _).
  - reflexivity.
  - apply Hrefused; [reflexivity|]. vm_compute. discriminate.
Defined.

(** C3 fails as stated: two reset requests for [u1] within the same
    second get the same token from the signer; the second issuance
    succeeds, and the first token still verifies after it. *)
Lemma same_second_issuances_share_token :
  let payload := Jwt.mk "a@x.com" in
  let env1 := Demo.delivering Demo.t0 in
  let env2 := Demo.delivering (Demo.t0 + 500) in
  let t1 := Demo.signAsync payload JWT_SECRET JWT_EXPIRES_IN (Env.now env1) in
  let s1 := snd (generateResetToken Demo.signAsync payload env1 Demo.s0) in
  let s2 := snd (generateResetToken Demo.signAsync payload env2 s1) in
  result (fst (generateResetToken Demo.signAsync payload env2 s1)) = success
  /\ verifyResetToken Demo.verify t1 (Demo.delivering (Demo.t0 + 1000)) s2
     = (mkResponse success "Token verified successfully" (DValid true), s2)
  /\ result (fst (verifyResetToken Demo.verify t1
                    (Demo.delivering (Demo.t0 + 1000)) s2))
     <> error.
Proof.
  vm_compute. repeat split; try reflexivity. discriminate.
Defined.

(** [u2] is offline and has no settings object. *)
Lemma toggleUserStatus_without_settings_witness :
  exists msg, toggleUserStatus "u2" Demo.s0 = (TypeError msg, Demo.s0).
Proof.
  apply (toggleUserStatus_without_settings "u2" Demo.s0 Demo.u2);
    reflexivity.
Defined.

(** ** The further theorems on sample data *)

Lemma ends_with_append (data prefix : string) :
  Demo.ends_with data (prefix ++ data) = true.
Proof.
  induction prefix as [|c prefix IH]; simpl.
  - destruct data; simpl; rewrite ?String.eqb_refl, ?Ascii.eqb_refl;
      reflexivity.
  - rewrite IH. apply orb_true_r.
Qed.

Lemma ends_with_longer (data prefix s : string) :
  Demo.ends_with data s = true -> Demo.ends_with data (prefix ++ s) = true.
Proof.
  intros H. induction prefix as [|c prefix IH]; simpl; [exact H|].
  rewrite IH. apply orb_true_r.
Qed.

Lemma compare_accepts_own_hash (data salt : string) :
  Demo.compare data (Demo.hash data BCRYPT_ROUNDS salt) = true.
Proof.
  unfold Demo.compare, Demo.hash.
  do 4 apply ends_with_longer. exact (ends_with_append data "").
Qed.

Lemma unique_ids_s0 : unique_ids Demo.s0.
Proof.
  unfold unique_ids. simpl.
  repeat (constructor; [simpl; intuition discriminate|]). constructor.
Qed.

Lemma unique_ids_s_accounts : unique_ids Demo.s_accounts.
Proof.
  unfold unique_ids. simpl.
  repeat (constructor; [simpl; intuition discriminate|]). constructor.
Qed.

Lemma unique_emails_s_accounts : unique_emails Demo.s_accounts.
Proof.
  unfold unique_emails. simpl.
  repeat (constructor; [simpl; intuition discriminate|]). constructor.
Qed.

Lemma issued_token_is_usable_witness :
  let s1 := snd (generateResetToken Demo.signAsync (Jwt.mk "a@x.com")
                   (Demo.delivering Demo.t0) Demo.s0) in
  verifyResetToken Demo.verify Demo.token0
    (Demo.delivering (Demo.t0 + 1000)) s1
  = (mkResponse success "Token verified successfully" (DValid true), s1)
  /\ fst (updatePassword Demo.verify Demo.hash Demo.token0 "newpass"
            (Demo.delivering (Demo.t0 + 2000)) s1)
     = mkResponse success "Password updated successfully" DNull.
Proof.
  intros s1.
  destruct (issued_token_is_usable Demo.signAsync Demo.verify Demo.hash
              (Jwt.mk "a@x.com") (Demo.delivering Demo.t0)
              (Demo.delivering (Demo.t0 + 1000))
              (Demo.delivering (Demo.t0 + 2000)) Demo.s0 Demo.u1 "newpass")
    as (Hverify & Hupdate & _).
  - reflexivity.
  - reflexivity.
  - reflexivity.
  - intros msg. discriminate.
  - split; [exact Hverify | exact Hupdate].
Defined.

Lemma updatePassword_writes_only_for_stored_token_witness :
  let s1 := snd (generateResetToken Demo.signAsync (Jwt.mk "a@x.com")
                   (Demo.delivering Demo.t0) Demo.s0) in
  exists decoded user,
    Demo.verify Demo.token0 JWT_SECRET (Demo.t0 + 1000)
    = Jwt.Decoded (Some decoded)
    /\ userRepository.findOne (by_email (Jwt.email decoded)) s1 = Some user
    /\ User.resetPasswordToken user = Some Demo.token0.
Proof.
  intros s1.
  apply (proj1 (updatePassword_writes_only_for_stored_token
                  Demo.verify Demo.hash Demo.token0 "newpass"
                  (Demo.delivering (Demo.t0 + 1000)) s1)).
  vm_compute. discriminate.
Defined.

(** [u1] is sent the code 5500, then on a resend the code 3250. *)
Lemma resend_revokes_first_code_witness :
  let s1 := snd (generateOtp "a@x.com" false
                   (Demo.drawing (1 # 2) Demo.t0) Demo.s0) in
  let s2 := snd (generateOtp "a@x.com" true
                   (Demo.drawing (1 # 4) (Demo.t0 + 1000)) s1) in
  verifyOtp "a@x.com" "5500" (Demo.delivering (Demo.t0 + 2000)) s2
  = (failure "Invalid OTP", s2)
  /\ fst (verifyOtp "a@x.com" "3250" (Demo.delivering (Demo.t0 + 2000)) s2)
     = mkResponse success "OTP verified successfully" DNull.
Proof.
  intros s1 s2.
  destruct (resend_revokes_first_code "a@x.com" false
              (Demo.drawing (1 # 2) Demo.t0)
              (Demo.drawing (1 # 4) (Demo.t0 + 1000))
              (Demo.delivering (Demo.t0 + 2000)) Demo.s0 Demo.u1)
    as (Hfirst & Hsecond).
  - reflexivity.
  - reflexivity.
  - reflexivity.
  - vm_compute. discriminate.
  - split; [exact Hfirst|]. apply Hsecond. vm_compute. discriminate.
Defined.


(** The toggle of [u2] throws and writes nothing; the toggle of [u3]
    returns and leaves the other rows alone. *)
Lemma toggleUserStatus_frame_witness :
  snd (toggleUserStatus "u2" Demo.s0) = Demo.s0
  /\ Forall2
       (fun u u' =>
          User.with_status (User.status u) u' = u
          /\ (User.id u <> "u3" -> u' = u))
       (users Demo.s0) (users (snd (toggleUserStatus "u3" Demo.s0))).
Proof.
  split.
  - apply (proj1 (toggleUserStatus_frame "u2" Demo.s0)).
    intros r H. vm_compute in H. discriminate.
  - apply (toggleUserStatus_frame "u3" Demo.s0). exact unique_ids_s0.
Defined.

Lemma toggleUserStatus_twice_witness :
  userRepository.findOne (by_id "u3")
    (snd (toggleUserStatus "u3" (snd (toggleUserStatus "u3" Demo.s0))))
  = Some Demo.u3.
Proof.
  apply (toggleUserStatus_twice "u3" Demo.s0 Demo.u3
           (Settings.with_verified true Demo.preferences)).
  - reflexivity.
  - reflexivity.
  - reflexivity.
  - left. reflexivity.
Defined.

Lemma getUserStatus_after_toggle_witness :
  exists user',
    getUserStatus "u3" (snd (toggleUserStatus "u3" Demo.s0))
    = Returned (mkResponse success "User status fetched successfully."
                  (DStatus (User.status user')))
    /\ User.status user' = "online".
Proof.
  destruct (getUserStatus_after_toggle "u3" Demo.s0
              (mkResponse success "User status updated to online."
                 (DUser (User.with_status "online" Demo.u3))))
    as (user' & Hdata & _ & _ & Hget).
  - reflexivity.
  - exists user'. split; [exact Hget|].
    simpl in Hdata. inversion Hdata. reflexivity.
Defined.

Lemma credential_requests_frame_witness :
  unique_ids
    (handle Demo.signAsync Demo.verify Demo.hash (ToggleUserStatus "u3")
       (Demo.delivering Demo.t0) Demo.s0).
Proof.
  apply (credential_requests_frame Demo.signAsync Demo.verify Demo.hash
           (ToggleUserStatus "u3") (Demo.delivering Demo.t0) Demo.s0).
  exact unique_ids_s0.
Defined.

Lemma changeEmail_moves_user_witness :
  userRepository.findOne (by_email "z@x.com")
    (snd (changeEmail "a@x.com" "z@x.com" Demo.s_accounts))
  = Some (User.with_email "z@x.com" Demo.u1)
  /\ userRepository.findOne (by_email "a@x.com")
       (snd (changeEmail "a@x.com" "z@x.com" Demo.s_accounts))
     = None.
Proof.
  destruct (changeEmail_moves_user "a@x.com" "z@x.com" Demo.s_accounts
              unique_ids_s_accounts)
    as (_ & Hmoved).
  destruct (Hmoved eq_refl) as (user & Hfind & Hnew & Hold).
  vm_compute in Hfind. inversion Hfind. subst user.
  split; [exact Hnew|]. exact (proj1 (Hold unique_emails_s_accounts)).
Defined.

Lemma settings_changeEmail_moves_user_witness :
  snd (settings_changeEmail "u1" "a@x.com" "b@x.com" Demo.s_accounts)
  = Demo.s_accounts
  /\ unique_emails
       (snd (settings_changeEmail "u1" "a@x.com" "z@x.com" Demo.s_accounts)).
Proof.
  split.
  - apply (proj1 (settings_changeEmail_moves_user "u1" "a@x.com" "b@x.com"
                    Demo.s_accounts unique_ids_s_accounts)).
    reflexivity.
  - destruct (settings_changeEmail_moves_user "u1" "a@x.com" "z@x.com"
                Demo.s_accounts unique_ids_s_accounts)
      as (_ & Hmoved).
    destruct (Hmoved eq_refl) as (user & _ & _ & _ & Hold).
    exact (proj2 (Hold unique_emails_s_accounts)).
Defined.

Lemma changePassword_round_trip_witness :
  changePassword Demo.hash Demo.compare "u4" "letmein" "tr0ub4dor"
    (Demo.delivering Demo.t0) Demo.s_accounts
  = (failure "Current password is incorrect", Demo.s_accounts)
  /\ result
       (fst (changePassword Demo.hash Demo.compare "u4" "tr0ub4dor" "next"
               (Demo.delivering (Demo.t0 + 1000))
               (snd (changePassword Demo.hash Demo.compare "u4" "hunter2"
                       "tr0ub4dor" (Demo.delivering Demo.t0)
                       Demo.s_accounts))))
     = success.
Proof.
  split.
  - apply (proj1 (changePassword_round_trip Demo.hash Demo.compare "u4"
                    "letmein" "tr0ub4dor" (Demo.delivering Demo.t0)
                    Demo.s_accounts Demo.u4 eq_refl)).
    reflexivity.
  - destruct (proj2 (changePassword_round_trip Demo.hash Demo.compare "u4"
                       "hunter2" "tr0ub4dor" (Demo.delivering Demo.t0)
                       Demo.s_accounts Demo.u4 eq_refl))
      as (_ & _ & Hnext).
    + reflexivity.
    + apply Hnext. exact compare_accepts_own_hash.
Defined.

Lemma updateCommunicationPreferences_outcome_witness :
  let dto := UpdateCommunicationPreferencesDto.mk
               (Some false) (Some true) (Some true) in
  result (fst (updateCommunicationPreferences dto "u1" Demo.s_accounts))
  = success
  /\ result (fst (updateCommunicationPreferences dto "u2" Demo.s_accounts))
     = error.
Proof.
  intros dto. split.
  - exact (proj1 (updateCommunicationPreferences_outcome dto "u1"
                    Demo.s_accounts Demo.u1 eq_refl)).
  - exact (proj1 (updateCommunicationPreferences_outcome dto "u2"
                    Demo.s_accounts Demo.u2 eq_refl)).
Defined.

(** The welcome mail of the registration is rejected. *)
Lemma create_is_not_rolled_back_witness :
  let env := Demo.at_ Demo.t0 (MailRejects "connect ETIMEDOUT") in
  let s' := snd (create Demo.hash Demo.registration Demo.inserted env
                   (Demo.delivering Demo.t0) Demo.s_accounts) in
  fst (create Demo.hash Demo.registration Demo.inserted env
         (Demo.delivering Demo.t0) Demo.s_accounts)
  = HttpException BAD_REQUEST "connect ETIMEDOUT"
  /\ create Demo.hash Demo.registration Demo.inserted
       (Demo.delivering (Demo.t0 + 1000))
       (Demo.delivering (Demo.t0 + 1000)) s'
     = (HttpException BAD_REQUEST "User with email already exists", s').
Proof.
  intros env s'.
  destruct (create_is_not_rolled_back Demo.hash Demo.registration
              Demo.inserted env (Demo.delivering Demo.t0) Demo.s_accounts)
    as (_ & Hthrown & Hagain).
  - reflexivity.
  - reflexivity.
  - reflexivity.
  - split.
    + exact (Hthrown "connect ETIMEDOUT" eq_refl).
    + apply Hagain. reflexivity.
Defined.

Lemma create_registers_witness :
  let s' := snd (create Demo.hash Demo.registration Demo.inserted
                   (Demo.delivering Demo.t0) (Demo.delivering Demo.t0)
                   Demo.s_accounts) in
  userRepository.findOne (by_email "e@x.com") s'
  = Some (created_user Demo.registration
            (Demo.hash "s3cret" BCRYPT_ROUNDS "salt") Demo.inserted)
  /\ fst (verifyOtp "e@x.com" "5500" (Demo.delivering (Demo.t0 + 1000)) s')
     = mkResponse success "OTP verified successfully" DNull.
Proof.
  intros s'.
  destruct (create_registers Demo.hash Demo.registration Demo.inserted
              (Demo.delivering Demo.t0) (Demo.delivering Demo.t0)
              (Demo.delivering (Demo.t0 + 1000)) Demo.s_accounts)
    as (_ & Hfound & Hverify).
  - reflexivity.
  - reflexivity.
  - reflexivity.
  - intros msg. discriminate.
  - intros msg. discriminate.
  - split; [exact Hfound|]. apply Hverify.
    + reflexivity.
    + reflexivity.
    + vm_compute. discriminate.
Defined.

Lemma account_requests_frame_witness :
  let s' := handle_account Demo.hash Demo.compare
              (Create Demo.registration Demo.inserted
                 (Demo.delivering Demo.t0))
              (Demo.delivering Demo.t0) Demo.s_accounts in
  unique_ids s' /\ unique_emails s'.
Proof.
  intros s'.
  destruct (account_requests_frame Demo.hash Demo.compare
              (Create Demo.registration Demo.inserted
                 (Demo.delivering Demo.t0))
              (Demo.delivering Demo.t0) Demo.s_accounts)
    as (_ & Hids & Hemails).
  - exact unique_ids_s_accounts.
  - simpl. intuition discriminate.
  - split; [exact Hids | exact (Hemails unique_emails_s_accounts)].
Defined.

